(** * surreal/learner/base.py: prefetch queue, learner core, registry, stats

    A shallow embedding of [surreal/learner/base.py].  Python objects are
    records held in one [World]; methods are computations in a small
    state-and-exception monad; the standard-library [queue.Queue] is a record
    with a capacity and a list of items; the module-level dictionary
    [learner_registry] is a finite map keyed by class name. *)

From Stdlib Require Import ZArith QArith Qminmax String DecimalString List Lia.
From Stdlib Require DecimalNat.
From stdpp Require Import gmap strings list.

Local Open Scope Z_scope.

(** ** Exceptions and outcomes *)

Inductive exn : Type :=
  | RuntimeError (msg : string)
  | NotImplementedError
  | AttributeError (msg : string)
  | KeyError (key : string)
  | PicklingError.

(** A call either returns, raises, or never returns because the calling
    thread waits on a condition that nothing will ever signal. *)
Inductive outcome (A : Type) : Type :=
  | Normal (a : A)
  | Raise (e : exn)
  | Blocked.
Arguments Normal {A} a.
Arguments Raise {A} e.
Arguments Blocked {A}.

(** An outcome without the value returned. *)
Definition void {A : Type} (o : outcome A) : outcome unit :=
  match o with
  | Normal _ => Normal tt
  | Raise e => Raise e
  | Blocked => Blocked
  end.

(** ** The standard-library [queue.Queue]

    [Queue(maxsize)] keeps its items in a deque: [put] appends on the right
    and waits while [maxsize > 0] and [qsize() >= maxsize]; [get] pops on the
    left and waits while the deque is empty.  Both run under the queue's
    mutex, so each is one atomic transition; [None] means that the caller
    has to wait. *)
Module PyQueue.

Record t (A : Type) : Type := Build { maxsize : Z; items : list A }.
Arguments Build {A} maxsize items.
Arguments maxsize {A} _.
Arguments items {A} _.

Definition Queue {A : Type} (maxsize : Z) : t A := Build maxsize [].

Definition qsize {A : Type} (q : t A) : Z := Z.of_nat (length (items q)).

Definition full {A : Type} (q : t A) : bool :=
  (0 <? maxsize q) && (maxsize q <=? qsize q).

Definition put {A : Type} (item : A) (q : t A) : option (t A) :=
  if full q then None
  else Some (Build (maxsize q) (items q ++ [item])).

Definition get {A : Type} (q : t A) : option (A * t A) :=
  match items q with
  | [] => None
  | item :: rest => Some (item, Build (maxsize q) rest)
  end.

End PyQueue.

(** ** Speed statistics of [Learner.update_tensorplex]

    Python floats are idealised as exact rationals; [1e-6] is [1/1000000]. *)
Module Stats.

Local Open Scope Q_scope.

Definition epsilon : Q := 1 # 1000000.

(** The builtin [min(a, b)]: [b] replaces [a] only when [b < a]. *)
Definition py_min (a b : Q) : Q := if Qlt_le_dec b a then b else a.

(** The five assignments to [tag_value_dict], in source order;
    [learn_avg], [fetch_avg] and [iter_avg] are [self.learn_timer.avg],
    [self.fetch_timer.avg] and [self.iter_timer.avg]. *)
Definition speed_tags (learn_avg fetch_avg iter_avg : Q)
    (tag_value_dict : gmap string Q) : gmap string Q :=
  let learn_time := learn_avg + epsilon in
  let fetch_time := fetch_avg + epsilon in
  let iter_time := iter_avg + epsilon in
  let d1 := <["speed/learn_time" := learn_time]> tag_value_dict in
  let d2 := <["speed/fetch_time" := fetch_time]> d1 in
  let d3 := <["speed/iter_time" := iter_time]> d2 in
  let d4 := <["speed/compute_bound_percent" :=
                py_min (learn_time / iter_time * 100) 100]> d3 in
  <["speed/io_bound_percent" :=
      py_min (fetch_time / iter_time * 100) 100]> d4.

End Stats.

(** ** The learner registry and the metaclass [LearnerMeta] *)
Module Registry.

(** The metaclasses in play: [type], [U.AutoInitializeMeta] (a subclass of
    [type]) and [LearnerMeta] (a subclass of [AutoInitializeMeta]). *)
Inductive metaclass : Type := type_ | AutoInitializeMeta | LearnerMeta.

(** A class object: its [__name__], its identity, the identities of its
    bases and its metaclass [type(cls)]. *)
Record class_obj : Type := Class {
  __name__ : string;
  class_id : nat;
  __bases__ : list nat;
  __class__ : metaclass
}.

(** The module state: the global dictionary and the number of class
    objects created so far (the next fresh identity). *)
Record state : Type := State {
  learner_registry : gmap string class_obj;
  classes_created : nat
}.

Definition empty_module : state := State ∅ 0.

Definition register_learner (target_class : class_obj) (st : state) : state :=
  State (<[__name__ target_class := target_class]> (learner_registry st))
        (classes_created st).

Definition learnerFactory (learner_name : string) (st : state)
    : outcome class_obj :=
  match learner_registry st !! learner_name with
  | Some cls => Normal cls
  | None => Raise (KeyError learner_name)
  end.

(** [type.__new__(meta, name, bases, class_dict)]: a new class object. *)
Definition type_new (meta : metaclass) (name : string)
    (bases : list class_obj) (st : state) : class_obj * state :=
  (Class name (classes_created st) (class_id <$> bases) meta,
   State (learner_registry st) (S (classes_created st))).

(** [LearnerMeta.__new__]: [super().__new__], then [register_learner]. *)
Definition LearnerMeta_new (name : string) (bases : list class_obj)
    (st : state) : class_obj * state :=
  let '(cls, st1) := type_new LearnerMeta name bases st in
  (cls, register_learner cls st1).

Definition derives (m1 m2 : metaclass) : bool :=
  match m1, m2 with
  | _, type_ => true
  | AutoInitializeMeta, AutoInitializeMeta => true
  | LearnerMeta, AutoInitializeMeta => true
  | LearnerMeta, LearnerMeta => true
  | _, _ => false
  end.

(** The metaclass of a class statement: the most derived one among the
    explicit [metaclass=] keyword ([type] when absent) and the metaclasses
    of the bases. *)
Definition winner (explicit : option metaclass) (bases : list class_obj)
    : metaclass :=
  fold_left (fun m b => if derives (__class__ b) m then __class__ b else m)
            bases (default type_ explicit).

(** [class name(bases, metaclass=explicit): ...] *)
Definition class_stmt (explicit : option metaclass) (name : string)
    (bases : list class_obj) (st : state) : class_obj * state :=
  match winner explicit bases with
  | LearnerMeta => LearnerMeta_new name bases st
  | meta => type_new meta name bases st
  end.

(** The two class statements of the module, in source order:
    [class LearnerCore(metaclass=LearnerMeta)] and
    [class Learner(LearnerCore)]. *)
Definition load_module : class_obj * class_obj * state :=
  let '(core, st1) := class_stmt (Some LearnerMeta) "LearnerCore" [] empty_module in
  let '(learner, st2) := class_stmt None "Learner" [core] st1 in
  (core, learner, st2).

End Registry.

(** ** The learner: [PrefetchBatchQueue] and [LearnerCore] *)
Module Learner.

(** A reference to a [TimeRecorder] object in the heap of timers. *)
Definition loc : Type := nat.

(** Modelled from the spec: [U.TimeRecorder] is not part of this file; it
    accumulates count and total duration per phase and exposes the running
    mean ([avg], taken as 0 before the first sample). *)
Record TimeRecorder : Type := Recorder { tr_count : nat; tr_total : Z }.

Definition new_TimeRecorder : TimeRecorder := Recorder 0 0.

Definition add_value (interval : Z) (r : TimeRecorder) : TimeRecorder :=
  Recorder (S (tr_count r)) (tr_total r + interval).

Definition avg (r : TimeRecorder) : Q :=
  match tr_count r with
  | O => 0%Q
  | S _ => (inject_Z (tr_total r) / inject_Z (Z.of_nat (tr_count r)))%Q
  end.

(** Modelled from the spec: [ZmqClientPool], the fetch client pool.  Its
    handler is always [PrefetchBatchQueue._enqueue]; [starts] counts the
    calls of [start()], each of which spawns the background fetch task. *)
Record ZmqClientPool : Type := ClientPool {
  host : string;
  port : Z;
  request : Z;
  is_pyobj : bool;
  starts : nat
}.

(** What [self._enqueue_thread] holds when it is not [None]: a reference
    to the one client object [self._client]. *)
Inductive client_ref : Type := the_client.

Section Embedding.

Context {Batch Model RetVal ModuleDict Payload : Type}.

Record PrefetchBatchQueue : Type := PrefetchQueue {
  _queue : PyQueue.t Batch;
  _batch_size : Z;
  _client : ZmqClientPool;
  _enqueue_thread : option client_ref;
  timer : loc
}.

(** Modelled from the spec: [ParameterPublisher] is bound to a port and
    to the mapping returned by [module_dict()]; [publisher_id] is the
    identity of the object. *)
Record ParameterPublisher : Type := Publisher {
  publisher_id : nat;
  publisher_port : Z;
  publisher_module_dict : ModuleDict
}.

Record LearnerCore : Type := Core {
  _ps_publisher : option ParameterPublisher;
  _ps_port : Z;
  learn_timer : loc;
  fetch_timer : loc;
  iter_timer : loc
}.

(** Calls that leave the learner's own code, in the order they happen. *)
Inductive event : Type :=
  | EvModuleDict
  | EvPublisherNew (id : nat) (port : Z)
  | EvClientStart
  | EvPut (item : Batch)
  | EvGet (item : Batch)
  | EvLearn (batch_exp : Batch)
  | EvPublish (iteration : nat) (message : string).

(** The objects reachable from a learner, and its environment:
    [self] is the [LearnerCore] instance, [prefetch_queue] the object
    that [self._prefetch_queue] refers to, [timers] the heap of
    [TimeRecorder] objects, [model] the state owned by the concrete
    learner; [clock] is the wall clock, [elapse] the durations of the
    coming external calls (0 once exhausted), [feed] the items the fetch
    pool will hand to its handler while the training thread waits,
    [wire] the messages sent on the publish channel. *)
Record World : Type := MkWorld {
  self : LearnerCore;
  prefetch_queue : PrefetchBatchQueue;
  timers : list TimeRecorder;
  model : Model;
  clock : Z;
  elapse : list Z;
  feed : list Batch;
  events : list event;
  publishers : nat;
  wire : list (nat * string * Payload)
}.

(** What a concrete learner and the serializer supply.  A method that is
    not overridden is [None]: the body of [LearnerCore] then runs. *)
Record Impl : Type := MkImpl {
  learn_override : option (Batch -> Model -> outcome RetVal * Model);
  module_dict_override : option (Model -> outcome ModuleDict);
  dumps : ModuleDict -> Model -> option Payload
}.

(** *** Field updates *)

Definition set_self (f : LearnerCore -> LearnerCore) (w : World) : World :=
  MkWorld (f (self w)) (prefetch_queue w) (timers w) (model w) (clock w)
          (elapse w) (feed w) (events w) (publishers w) (wire w).
Definition set_prefetch_queue (f : PrefetchBatchQueue -> PrefetchBatchQueue)
    (w : World) : World :=
  MkWorld (self w) (f (prefetch_queue w)) (timers w) (model w) (clock w)
          (elapse w) (feed w) (events w) (publishers w) (wire w).
Definition set_timers (f : list TimeRecorder -> list TimeRecorder)
    (w : World) : World :=
  MkWorld (self w) (prefetch_queue w) (f (timers w)) (model w) (clock w)
          (elapse w) (feed w) (events w) (publishers w) (wire w).
Definition set_model (m : Model) (w : World) : World :=
  MkWorld (self w) (prefetch_queue w) (timers w) m (clock w)
          (elapse w) (feed w) (events w) (publishers w) (wire w).
Definition set_clock (c : Z) (l : list Z) (w : World) : World :=
  MkWorld (self w) (prefetch_queue w) (timers w) (model w) c
          l (feed w) (events w) (publishers w) (wire w).
Definition set_feed (l : list Batch) (w : World) : World :=
  MkWorld (self w) (prefetch_queue w) (timers w) (model w) (clock w)
          (elapse w) l (events w) (publishers w) (wire w).
Definition set_events (l : list event) (w : World) : World :=
  MkWorld (self w) (prefetch_queue w) (timers w) (model w) (clock w)
          (elapse w) (feed w) l (publishers w) (wire w).
Definition set_publishers (n : nat) (w : World) : World :=
  MkWorld (self w) (prefetch_queue w) (timers w) (model w) (clock w)
          (elapse w) (feed w) (events w) n (wire w).
Definition set_wire (l : list (nat * string * Payload)) (w : World) : World :=
  MkWorld (self w) (prefetch_queue w) (timers w) (model w) (clock w)
          (elapse w) (feed w) (events w) (publishers w) l.

Definition with_queue (q : PyQueue.t Batch) (p : PrefetchBatchQueue)
    : PrefetchBatchQueue :=
  PrefetchQueue q (_batch_size p) (_client p) (_enqueue_thread p) (timer p).
Definition with_enqueue_thread (t : option client_ref)
    (p : PrefetchBatchQueue) : PrefetchBatchQueue :=
  PrefetchQueue (_queue p) (_batch_size p) (_client p) t (timer p).
Definition with_client (c : ZmqClientPool) (p : PrefetchBatchQueue)
    : PrefetchBatchQueue :=
  PrefetchQueue (_queue p) (_batch_size p) c (_enqueue_thread p) (timer p).
Definition with_ps_publisher (p : option ParameterPublisher)
    (l : LearnerCore) : LearnerCore :=
  Core p (_ps_port l) (learn_timer l) (fetch_timer l) (iter_timer l).

(** *** The monad of method bodies: state, exceptions, waiting *)

Definition M (A : Type) : Type := World -> outcome A * World.

Definition ret {A : Type} (a : A) : M A := fun w => (Normal a, w).

Definition bind {A B : Type} (c : M A) (k : A -> M B) : M B :=
  fun w =>
    match c w with
    | (Normal a, w1) => k a w1
    | (Raise e, w1) => (Raise e, w1)
    | (Blocked, w1) => (Blocked, w1)
    end.

Definition raise {A : Type} (e : exn) : M A := fun w => (Raise e, w).

Definition gets {A : Type} (f : World -> A) : M A := fun w => (Normal (f w), w).

Definition modify (f : World -> World) : M unit := fun w => (Normal tt, f w).

Notation "x <- c ;; k" := (bind c (fun x => k))
  (at level 100, c at next level, right associativity).
Notation "c ;;; k" := (bind c (fun _ => k))
  (at level 100, right associativity).

(** [time.time()] *)
Definition time_time : M Z := gets clock.

(** An external call takes the next duration of [elapse]. *)
Definition spend : M unit :=
  modify (fun w => set_clock (clock w + hd 0 (elapse w)) (tl (elapse w)) w).

Definition log (e : event) : M unit :=
  modify (fun w => set_events (events w ++ [e]) w).

(** Modelled from the spec: [with recorder.time(): body] records the
    wall-clock duration of its body; a body that raises records
    nothing. *)
Definition time {A : Type} (r : loc) (body : M A) : M A :=
  pre_time <- time_time ;;
  x <- body ;;
  post_time <- time_time ;;
  modify (set_timers (alter (add_value (post_time - pre_time)) r)) ;;;
  ret x.

(** *** [queue.Queue] as seen by the calling thread *)

(** [self._queue.put(item, block=True)]: the calling thread waits while
    the queue is full. *)
Definition Queue_put (item : Batch) : M unit :=
  fun w =>
    match PyQueue.put item (_queue (prefetch_queue w)) with
    | Some q =>
        (Normal tt,
         set_events (events w ++ [EvPut item])
           (set_prefetch_queue (with_queue q) w))
    | None => (Blocked, w)
    end.

(** [self._queue.get(block=True)]: on an empty queue the calling thread
    waits until the fetch pool hands its next item to the handler, which
    puts it; with nothing left to arrive it waits for ever. *)
Definition Queue_get : M Batch :=
  fun w =>
    match PyQueue.get (_queue (prefetch_queue w)) with
    | Some (item, q) =>
        (spend ;;; log (EvGet item) ;;; ret item)
          (set_prefetch_queue (with_queue q) w)
    | None =>
        match feed w with
        | item :: rest =>
            (spend ;;; Queue_put item ;;;
             q <- gets (fun w => _queue (prefetch_queue w)) ;;
             match PyQueue.get q with
             | Some (item', q') =>
                 modify (set_prefetch_queue (with_queue q')) ;;;
                 log (EvGet item') ;;; ret item'
             | None => fun w => (Blocked, w)
             end) (set_feed rest w)
        | [] => (Blocked, w)
        end
    end.

(** *** [PrefetchBatchQueue] *)

Definition PrefetchBatchQueue_init (sampler_host : string)
    (sampler_port batch_size max_size : Z) (heap : list TimeRecorder)
    : PrefetchBatchQueue * list TimeRecorder :=
  (PrefetchQueue (PyQueue.Queue max_size) batch_size
     (ClientPool sampler_host sampler_port batch_size true 0)
     None (length heap),
   heap ++ [new_TimeRecorder]).

Definition _enqueue (item : Batch) : M unit := Queue_put item.

(** [self._client.start()] *)
Definition client_start : M unit :=
  log EvClientStart ;;;
  modify (set_prefetch_queue (fun p =>
    let c := _client p in
    with_client
      (ClientPool (host c) (port c) (request c) (is_pyobj c) (S (starts c)))
      p)).

Definition start_enqueue_thread : M (option client_ref) :=
  t <- gets (fun w => _enqueue_thread (prefetch_queue w)) ;;
  match t with
  | Some _ => raise (RuntimeError "Enqueue thread is already running")
  | None =>
      modify (set_prefetch_queue (with_enqueue_thread (Some the_client))) ;;;
      client_start ;;;
      gets (fun w => _enqueue_thread (prefetch_queue w))
  end.

Definition dequeue : M Batch :=
  r <- gets (fun w => timer (prefetch_queue w)) ;;
  time r Queue_get.

Definition __len__ (w : World) : Z := PyQueue.qsize (_queue (prefetch_queue w)).

(** The items waiting in [self._queue], oldest first, and its [maxsize]. *)
Definition queue_items (w : World) : list Batch :=
  PyQueue.items (_queue (prefetch_queue w)).

Definition capacity (w : World) : Z :=
  PyQueue.maxsize (_queue (prefetch_queue w)).

(** *** [LearnerCore] *)

Variable impl : Impl.

(** [LearnerCore.__init__]: the world right after construction, given
    the initial state of the concrete learner and the environment. *)
Definition LearnerCore_init (sampler_host : string)
    (sampler_port ps_publish_port batch_size max_prefetch_batch_queue : Z)
    (model0 : Model) (elapse0 : list Z) (feed0 : list Batch) : World :=
  let '(pq, heap1) :=
    PrefetchBatchQueue_init sampler_host sampler_port batch_size
      max_prefetch_batch_queue [] in
  let learn_timer := length heap1 in
  let heap2 := heap1 ++ [new_TimeRecorder] in
  let fetch_timer := timer pq in
  let iter_timer := length heap2 in
  let heap3 := heap2 ++ [new_TimeRecorder] in
  MkWorld (Core None ps_publish_port learn_timer fetch_timer iter_timer)
          pq heap3 model0 0 elapse0 feed0 [] 0 [].

(** [learn]: abstract in [LearnerCore]. *)
Definition learn (batch_exp : Batch) : M RetVal :=
  log (EvLearn batch_exp) ;;;
  spend ;;;
  match learn_override impl with
  | None => raise NotImplementedError
  | Some f =>
      fun w => let '(r, m) := f batch_exp (model w) in (r, set_model m w)
  end.

(** [module_dict]: abstract in [LearnerCore]. *)
Definition module_dict : M ModuleDict :=
  log EvModuleDict ;;;
  match module_dict_override impl with
  | None => raise NotImplementedError
  | Some f => fun w => (f (model w), w)
  end.

(** Modelled from the spec: the constructor of [ParameterPublisher]
    binds a new publisher object to the port and the module mapping. *)
Definition ParameterPublisher_new (port : Z) (module_dict : ModuleDict)
    : M ParameterPublisher :=
  id <- gets publishers ;;
  modify (set_publishers (S id)) ;;;
  log (EvPublisherNew id port) ;;;
  ret (Publisher id port module_dict).

(** Modelled from the spec: [ParameterPublisher.publish] serializes the
    current state of the modules, attaches the iteration and the message
    and sends once; a serialization failure surfaces to the caller. *)
Definition publish (p : ParameterPublisher) (iteration : nat)
    (message : string) : M unit :=
  log (EvPublish iteration message) ;;;
  spend ;;;
  m <- gets model ;;
  match dumps impl (publisher_module_dict p) m with
  | None => raise PicklingError
  | Some payload =>
      modify (fun w => set_wire (wire w ++ [(iteration, message, payload)]) w)
  end.

Definition _initialize : M unit :=
  port <- gets (fun w => _ps_port (self w)) ;;
  md <- module_dict ;;
  p <- ParameterPublisher_new port md ;;
  modify (set_self (with_ps_publisher (Some p))) ;;;
  start_enqueue_thread ;;;
  ret tt.

Definition publish_parameter (iteration : nat) (message : string) : M unit :=
  p <- gets (fun w => _ps_publisher (self w)) ;;
  match p with
  | None => raise (AttributeError "'NoneType' object has no attribute 'publish'")
  | Some p => publish p iteration message
  end.

Definition fetch_batch : M Batch := dequeue.

(** [str(i)] for a non-negative integer. *)
Definition str (i : nat) : string := NilEmpty.string_of_uint (Nat.to_uint i).

(** The body of the [for] statement of [main_loop], for the pair
    [(i, batch)] produced by [enumerate(self.fetch_iterator())]. *)
Definition loop_body (i : nat) (batch : Batch) : M unit :=
  it <- gets (fun w => iter_timer (self w)) ;;
  lt <- gets (fun w => learn_timer (self w)) ;;
  time it
    (time lt (learn batch) ;;;
     publish_parameter i ("batch " +:+ str i)).

(** [main_loop], cut after [n] iterations; [i] is the counter of
    [enumerate].  Each iteration first resumes the generator
    [fetch_iterator], which yields [self.fetch_batch()], then runs the
    body. *)
Fixpoint main_loop_from (n i : nat) : M unit :=
  match n with
  | O => ret tt
  | S n' =>
      batch <- fetch_batch ;;
      loop_body i batch ;;;
      main_loop_from n' (S i)
  end.

Definition main_loop (n : nat) : M unit := main_loop_from n 0.

(** [Learner.update_tensorplex], up to the hand-over to the periodic
    aggregator: the dictionary that is passed on. *)
Definition update_tensorplex (tag_value_dict : gmap string Q) (w : World)
    : gmap string Q :=
  let timer_avg (r : loc) := avg (default new_TimeRecorder (timers w !! r)) in
  Stats.speed_tags (timer_avg (learn_timer (self w)))
                   (timer_avg (fetch_timer (self w)))
                   (timer_avg (iter_timer (self w)))
                   tag_value_dict.

(** *** Interleavings of the queue's two operations *)

Inductive op : Type :=
  | Enqueue (item : Batch)
  | Dequeue.

(** One turn of a thread: the producer's handler or the consumer's
    [dequeue].  A call that has to wait changes nothing. *)
Definition step (o : op) (w : World) : World :=
  match o with
  | Enqueue item => snd (_enqueue item w)
  | Dequeue => snd (dequeue w)
  end.

Definition run (schedule : list op) (w : World) : World :=
  fold_left (fun w o => step o w) schedule w.

(** The items put, and the items got, in the order of the calls. *)
Definition enqueued (l : list event) : list Batch :=
  flat_map (fun e => match e with EvPut b => [b] | _ => [] end) l.

Definition dequeued (l : list event) : list Batch :=
  flat_map (fun e => match e with EvGet b => [b] | _ => [] end) l.

(** The calls of [publish], of [client.start()], and the events of the
    training thread alone (the producer's puts left out). *)
Definition publish_calls (l : list event) : list (nat * string) :=
  flat_map (fun e => match e with EvPublish i m => [(i, m)] | _ => [] end) l.

Definition client_starts (l : list event) : nat :=
  length (flat_map (fun e => match e with EvClientStart => [e] | _ => [] end) l).

Definition training_events (l : list event) : list event :=
  flat_map (fun e => match e with EvPut _ => [] | _ => [e] end) l.

(** What the training thread does in iteration [i] on batch [b]. *)
Definition iteration_events (ib : nat * Batch) : list event :=
  [EvGet ib.2; EvLearn ib.2; EvPublish ib.1 ("batch " +:+ str ib.1)].

End Embedding.

Arguments PrefetchBatchQueue : clear implicits.
Arguments ParameterPublisher : clear implicits.
Arguments LearnerCore : clear implicits.
Arguments event : clear implicits.
Arguments World : clear implicits.
Arguments Impl : clear implicits.
Arguments M : clear implicits.

(** Two concrete learners that differ at most in the values their [learn]
    returns: same effect on the model, same exceptions, same serializer. *)
Definition agree_up_to_returned {Batch Model R1 R2 ModuleDict Payload : Type}
    (impl1 : Impl Batch Model R1 ModuleDict Payload)
    (impl2 : Impl Batch Model R2 ModuleDict Payload) : Prop :=
  (forall md m, dumps impl1 md m = dumps impl2 md m)
  /\ match learn_override impl1, learn_override impl2 with
     | Some f1, Some f2 =>
         forall b m, void (f1 b m).1 = void (f2 b m).1 /\ (f1 b m).2 = (f2 b m).2
     | None, None => True
     | _, _ => False
     end.

End Learner.

(** ** Concrete learners and worlds used to exercise the properties *)
Module Examples.

Import Learner.

(** A toy learner: a batch is a number, the model is the list of batches
    learnt so far (latest first), and [learn] returns [r]. *)
Definition toy (r : nat) : Impl nat (list nat) nat (list string) string :=
  MkImpl (Some (fun b m => (Normal r, b :: m)))
         (Some (fun _ => Normal ["actor"; "critic"]))
         (fun _ _ => Some "pickled").

(** A learner with capacity 2, three batches to arrive, and the
    durations of the coming external calls. *)
Definition constructed : World nat (list nat) (list string) string :=
  LearnerCore_init "localhost" 7000 7001 32 2 [] [5; 2; 1; 7; 3; 4]
                   [10; 11; 12]%nat.

Definition initialized : World nat (list nat) (list string) string :=
  snd (_initialize (toy 0) constructed).

(** The same learner constructed with [max_prefetch_batch_queue = 0]. *)
Definition constructed_unbounded : World nat (list nat) (list string) string :=
  LearnerCore_init "localhost" 7000 7001 32 0 [] [] [].

(** The learner after two iterations, and after one dequeue. *)
Definition after_two : World nat (list nat) (list string) string :=
  snd (main_loop (toy 0) 2 initialized).

Definition after_fetch : World nat (list nat) (list string) string :=
  snd (fetch_batch initialized).

(** One iteration in which the dequeue takes 5 time units, [learn] 2 and
    the publish 1. *)
Definition after_one : World nat (list nat) (list string) string :=
  snd (main_loop (toy 0) 1 initialized).

Definition producer_first : list (@op nat) :=
  [Enqueue 1; Enqueue 2; Enqueue 3; Dequeue; Enqueue 3; Dequeue; Dequeue;
   Dequeue]%nat.

End Examples.

(** ** Sequences of class statements *)
Module Statements.

Import Registry.

(** One class statement: the [metaclass=] keyword if any, the name and the
    bases. *)
Record stmt : Type := Stmt {
  stmt_meta : option metaclass;
  stmt_name : string;
  stmt_bases : list class_obj
}.

(** Whether the statement goes through [LearnerMeta.__new__]. *)
Definition registers (s : stmt) : bool :=
  match winner (stmt_meta s) (stmt_bases s) with
  | LearnerMeta => true
  | _ => false
  end.

Definition exec (s : stmt) (st : state) : state :=
  (class_stmt (stmt_meta s) (stmt_name s) (stmt_bases s) st).2.

(** The statements of a program, executed in order. *)
Definition exec_all (l : list stmt) (st : state) : state :=
  fold_left (fun st s => exec s st) l st.

End Statements.

(** ** Runs of the learner: what is consumed, learnt and timed *)
Module Runs.

Import Learner.

Section Runs.

Context {Batch Model RetVal ModuleDict Payload : Type}.
Variable impl : Impl Batch Model RetVal ModuleDict Payload.

(** The batches still to come to the training thread, oldest first: those
    waiting in the queue, then those the fetch pool has yet to deliver. *)
Definition supply (w : World Batch Model ModuleDict Payload) : list Batch :=
  queue_items w ++ feed w.

(** The batches handed to [learn], in the order of the calls. *)
Definition learned (l : list (event Batch)) : list Batch :=
  flat_map (fun e => match e with EvLearn b => [b] | _ => [] end) l.

(** What [self.learn(batch)] does to the model and how it ends, for the
    learner at hand: the body of [LearnerCore.learn] raises when the method
    is not overridden. *)
Definition learn_result (b : Batch) (m : Model) : outcome RetVal * Model :=
  match learn_override impl with
  | None => (Raise NotImplementedError, m)
  | Some f => f b m
  end.

(** The model after learning from the batches in turn. *)
Definition learn_all (bs : list Batch) (m : Model) : Model :=
  fold_left (fun m b => (learn_result b m).2) bs m.

(** What [self.module_dict()] returns for the learner at hand. *)
Definition module_dict_result (m : Model) : outcome ModuleDict :=
  match module_dict_override impl with
  | None => Raise NotImplementedError
  | Some g => g m
  end.

(** [k] calls of [_initialize] in a row, whatever each one's outcome. *)
Definition initialize_attempts (k : nat) (w : World Batch Model ModuleDict Payload)
    : World Batch Model ModuleDict Payload :=
  Nat.iter k (fun w => (_initialize impl w).2) w.

(** The timer behind a reference (a fresh one where the reference
    dangles). *)
Definition timer_at (l : loc) (w : World Batch Model ModuleDict Payload)
    : TimeRecorder :=
  default new_TimeRecorder (timers w !! l).

(** The timers are bound the way [LearnerCore.__init__] binds them: the
    fetch timer is the queue's timer, the three references are distinct and
    point into the heap. *)
Definition timers_bound (w : World Batch Model ModuleDict Payload) : Prop :=
  fetch_timer (self w) = timer (prefetch_queue w)
  /\ fetch_timer (self w) <> learn_timer (self w)
  /\ fetch_timer (self w) <> iter_timer (self w)
  /\ learn_timer (self w) <> iter_timer (self w)
  /\ (fetch_timer (self w) < length (timers w))%nat
  /\ (learn_timer (self w) < length (timers w))%nat
  /\ (iter_timer (self w) < length (timers w))%nat.

(** What construction and initialization wire together, and nothing later
    should rebind: the learner's attributes (publisher, port, timer
    references), the queue's client, thread handle, capacity, batch size
    and timer reference, the number of publishers built and the size of the
    heap of timers. *)
Definition same_wiring (w w' : World Batch Model ModuleDict Payload) : Prop :=
  self w' = self w
  /\ _client (prefetch_queue w') = _client (prefetch_queue w)
  /\ _enqueue_thread (prefetch_queue w') = _enqueue_thread (prefetch_queue w)
  /\ _batch_size (prefetch_queue w') = _batch_size (prefetch_queue w)
  /\ timer (prefetch_queue w') = timer (prefetch_queue w)
  /\ capacity w' = capacity w
  /\ publishers w' = publishers w
  /\ length (timers w') = length (timers w).

End Runs.

End Runs.

(** ** Further concrete inputs *)
Module MoreExamples.

Import Learner Registry Statements.

(** [LearnerCore] itself: nothing overridden. *)
Definition abstract : Impl nat (list nat) nat (list string) string :=
  MkImpl None None (fun _ _ => None).

(** The toy learner's queue after the producer has filled it. *)
Definition full_queue : World nat (list nat) (list string) string :=
  run [Enqueue 1; Enqueue 2]%nat Examples.constructed.

(** A program that defines a helper class, two learners, and one of the
    learners a second time. *)
Definition first_ddpg : stmt := Stmt (Some LearnerMeta) "DDPGLearner" [].
Definition second_ddpg : stmt := Stmt (Some LearnerMeta) "DDPGLearner" [].
Definition helper_and_ppo : list stmt :=
  [Stmt None "Helper" []; Stmt (Some LearnerMeta) "PPOLearner" []].

(** A dictionary with a tag of the caller's own. *)
Definition caller_tags : gmap string Q := {["loss" := (1 # 2)%Q]}.

End MoreExamples.

(** * Properties *)

Import Learner.

(** ** The prefetch queue under interleavings *)
Section QueueFacts.

Context {Batch Model ModuleDict Payload : Type}.
Implicit Types (w : World Batch Model ModuleDict Payload) (item : Batch).
Implicit Types (schedule : list (@op Batch)).

Lemma put_on_empty (m : Z) item :
  PyQueue.put item (PyQueue.Build m []) = Some (PyQueue.Build m [item]).
Proof.
  unfold PyQueue.put, PyQueue.full, PyQueue.qsize; simpl.
  destruct (0 <? m) eqn:Hpos; simpl; [|reflexivity].
  change (Z.of_nat 0) with 0.
  destruct (m <=? 0) eqn:Hle; [lia | reflexivity].
Qed.

(** What [_enqueue] does to the world. *)
Lemma enqueue_ready item w q :
  PyQueue.put item (_queue (prefetch_queue w)) = Some q ->
  _enqueue item w =
    (Normal tt,
     set_events (events w ++ [EvPut item]) (set_prefetch_queue (with_queue q) w)).
Proof. intros H. unfold _enqueue, Queue_put. rewrite H. reflexivity. Qed.

Lemma enqueue_waits item w :
  PyQueue.put item (_queue (prefetch_queue w)) = None ->
  _enqueue item w = (Blocked, w).
Proof. intros H. unfold _enqueue, Queue_put. rewrite H. reflexivity. Qed.

(** What [dequeue] does to the queue, the feed and the log. *)
Lemma dequeue_nonempty w item rest :
  queue_items w = item :: rest ->
  exists w', dequeue w = (Normal item, w')
    /\ queue_items w' = rest /\ capacity w' = capacity w
    /\ feed w' = feed w /\ events w' = events w ++ [EvGet item].
Proof.
  unfold queue_items, capacity. intros H.
  destruct w as [s [[m its] bs c t r] ts md ck el fd ev pb wr]; simpl in *; subst.
  eexists. split; [reflexivity|]. simpl. auto.
Qed.

Lemma dequeue_from_feed w item rest :
  queue_items w = [] -> feed w = item :: rest ->
  exists w', dequeue w = (Normal item, w')
    /\ queue_items w' = [] /\ capacity w' = capacity w
    /\ feed w' = rest /\ events w' = events w ++ [EvPut item; EvGet item].
Proof.
  unfold queue_items, capacity. intros H Hf.
  destruct w as [s [[m its] bs c t r] ts md ck el fd ev pb wr]; simpl in *; subst.
  unfold dequeue, time, Queue_get, bind, gets, time_time, PyQueue.get; simpl.
  unfold Queue_put; simpl. rewrite put_on_empty. simpl.
  eexists. split; [reflexivity|]. simpl. rewrite <- app_assoc. auto.
Qed.

Lemma dequeue_waits w :
  queue_items w = [] -> feed w = [] -> dequeue w = (Blocked, w).
Proof.
  unfold queue_items. intros H Hf.
  destruct w as [s [[m its] bs c t r] ts md ck el fd ev pb wr]; simpl in *; subst.
  reflexivity.
Qed.

(** The four ways a turn can go. *)
Lemma step_cases (o : @op Batch) w :
  capacity (step o w) = capacity w /\
  (step o w = w
   \/ (exists item,
         PyQueue.full (_queue (prefetch_queue w)) = false
         /\ queue_items (step o w) = queue_items w ++ [item]
         /\ events (step o w) = events w ++ [EvPut item])
   \/ (exists item,
         queue_items w = item :: queue_items (step o w)
         /\ events (step o w) = events w ++ [EvGet item])
   \/ (exists item,
         queue_items w = [] /\ queue_items (step o w) = []
         /\ events (step o w) = events w ++ [EvPut item; EvGet item])).
Proof.
  destruct o as [item|]; simpl.
  - destruct (PyQueue.put item (_queue (prefetch_queue w))) as [q|] eqn:Hput.
    + rewrite (enqueue_ready _ _ _ Hput). simpl.
      unfold PyQueue.put in Hput.
      destruct (PyQueue.full (_queue (prefetch_queue w))) eqn:Hfull; [discriminate|].
      injection Hput as <-. split; [reflexivity|].
      right; left. exists item. auto.
    + rewrite (enqueue_waits _ _ Hput). simpl. auto.
  - destruct (queue_items w) as [|item rest] eqn:Hq.
    + destruct (feed w) as [|item rest] eqn:Hf.
      * rewrite (dequeue_waits _ Hq Hf). simpl. auto.
      * destruct (dequeue_from_feed _ _ _ Hq Hf) as (w' & -> & Hq' & Hc & _ & He).
        simpl. split; [exact Hc|]. right; right; right. exists item. auto.
    + destruct (dequeue_nonempty _ _ _ Hq) as (w' & -> & Hq' & Hc & _ & He).
      simpl. split; [exact Hc|]. right; right; left. exists item.
      rewrite Hq'. auto.
Qed.

Lemma enqueued_app (l1 l2 : list (event Batch)) :
  enqueued (l1 ++ l2) = enqueued l1 ++ enqueued l2.
Proof. apply flat_map_app. Qed.

Lemma dequeued_app (l1 l2 : list (event Batch)) :
  dequeued (l1 ++ l2) = dequeued l1 ++ dequeued l2.
Proof. apply flat_map_app. Qed.

Lemma step_fifo (o : @op Batch) w :
  enqueued (events w) = dequeued (events w) ++ queue_items w ->
  enqueued (events (step o w)) =
    dequeued (events (step o w)) ++ queue_items (step o w).
Proof.
  intros Hinv.
  destruct (step_cases o w) as [_ [-> | [(x & _ & Hq & He) | [(x & Hq & He) | (x & Hq & Hq' & He)]]]].
  - exact Hinv.
  - rewrite He, Hq, enqueued_app, dequeued_app, Hinv. simpl.
    rewrite !app_nil_r, app_assoc. reflexivity.
  - rewrite He, enqueued_app, dequeued_app, Hinv, Hq. simpl.
    rewrite !app_nil_r, <- app_assoc. reflexivity.
  - rewrite He, Hq', enqueued_app, dequeued_app, Hinv, Hq. simpl.
    rewrite !app_nil_r. reflexivity.
Qed.

Lemma step_bounded (o : @op Batch) w :
  0 < capacity w -> __len__ w <= capacity w ->
  __len__ (step o w) <= capacity (step o w).
Proof.
  intros Hpos Hle.
  destruct (step_cases o w) as [Hc [Heq | [(x & Hfull & Hq & _) | [(x & Hq & _) | (x & _ & Hq' & _)]]]];
    rewrite Hc.
  - rewrite Heq. exact Hle.
  - unfold __len__, PyQueue.qsize, queue_items, capacity in *.
    rewrite Hq, length_app. simpl.
    unfold PyQueue.full, PyQueue.qsize in Hfull.
    apply andb_false_iff in Hfull. destruct Hfull as [Hf | Hf]; lia.
  - unfold __len__, PyQueue.qsize, queue_items, capacity in *.
    rewrite Hq in Hle. simpl in Hle. lia.
  - unfold __len__, PyQueue.qsize, queue_items, capacity in *.
    rewrite Hq'. simpl. lia.
Qed.

Lemma run_snoc schedule (o : @op Batch) w :
  run (schedule ++ [o]) w = step o (run schedule w).
Proof. unfold run. rewrite fold_left_app. reflexivity. Qed.

Lemma run_capacity schedule w : capacity (run schedule w) = capacity w.
Proof.
  induction schedule as [|o schedule IH] using rev_ind; [reflexivity|].
  rewrite run_snoc. destruct (step_cases o (run schedule w)) as [-> _]. exact IH.
Qed.

(** C4. For a single producer and a single consumer the prefetch queue is
    first-in first-out: after any sequence of enqueue and dequeue turns on
    a newly constructed learner, the items enqueued so far are, in order,
    the items dequeued so far followed by the items still waiting; and a
    [dequeue()] on a non-empty queue returns its oldest item and leaves the
    others. *)
Theorem prefetch_queue_fifo (sampler_host : string)
    (sampler_port ps_publish_port batch_size max_prefetch_batch_queue : Z)
    (model0 : Model) (elapse0 : list Z) (feed0 : list Batch) schedule :
  let w := run schedule
             (LearnerCore_init (ModuleDict:=ModuleDict) (Payload:=Payload)
                sampler_host sampler_port ps_publish_port batch_size
                max_prefetch_batch_queue model0 elapse0 feed0) in
  enqueued (events w) = dequeued (events w) ++ queue_items w
  /\ (forall (w0 : World Batch Model ModuleDict Payload) item rest,
        queue_items w0 = item :: rest ->
        exists w1, dequeue w0 = (Normal item, w1) /\ queue_items w1 = rest).
Proof.
  intros w. split.
  - subst w. induction schedule as [|o schedule IH] using rev_ind.
    + reflexivity.
    + rewrite run_snoc. apply step_fifo, IH.
  - intros w0 item rest H.
    destruct (dequeue_nonempty _ _ _ H) as (w1 & Hd & Hq & _).
    exists w1. auto.
Qed.

(** C5. On a prefetch queue constructed with a capacity
    [max_prefetch_batch_queue > 0], whatever the interleaving of enqueue
    and dequeue turns, the length reported lies between 0 and the
    capacity. *)
Theorem prefetch_queue_length_bounded (sampler_host : string)
    (sampler_port ps_publish_port batch_size max_prefetch_batch_queue : Z)
    (model0 : Model) (elapse0 : list Z) (feed0 : list Batch) schedule :
  0 < max_prefetch_batch_queue ->
  0 <= __len__ (run schedule
                  (LearnerCore_init (ModuleDict:=ModuleDict) (Payload:=Payload)
                     sampler_host sampler_port ps_publish_port batch_size
                     max_prefetch_batch_queue model0 elapse0 feed0))
    <= max_prefetch_batch_queue.
Proof.
  intros Hpos. split; [unfold __len__, PyQueue.qsize; lia|].
  set (w0 := LearnerCore_init _ _ _ _ _ _ _ _).
  change max_prefetch_batch_queue with (capacity w0).
  rewrite <- (run_capacity schedule w0).
  induction schedule as [|o schedule IH] using rev_ind.
  - unfold __len__, PyQueue.qsize, capacity; simpl. lia.
  - rewrite run_snoc. apply step_bounded; [|exact IH].
    rewrite run_capacity. exact Hpos.
Qed.

End QueueFacts.

Lemma prefetch_queue_fifo_witness :
  let w := run Examples.producer_first Examples.constructed in
  enqueued (events w) = dequeued (events w) ++ queue_items w
  /\ (forall (w0 : World nat (list nat) (list string) string) item rest,
        queue_items w0 = item :: rest ->
        exists w1, dequeue w0 = (Normal item, w1) /\ queue_items w1 = rest).
Proof.
  exact (prefetch_queue_fifo "localhost" 7000 7001 32 2 [] [5; 2; 1; 7; 3; 4]
           [10; 11; 12]%nat Examples.producer_first).
Defined.

Lemma prefetch_queue_length_bounded_witness :
  0 < 2 /\ 0 <= __len__ (run Examples.producer_first Examples.constructed) <= 2.
Proof.
  split; [lia|].
  apply (prefetch_queue_length_bounded "localhost" 7000 7001 32 2 []
           [5; 2; 1; 7; 3; 4] [10; 11; 12]%nat Examples.producer_first).
  lia.
Defined.

(** With [max_prefetch_batch_queue = 0] the standard-library queue is
    unbounded, and the length exceeds that number after one enqueue. *)
Example length_unbounded_without_capacity :
  __len__ (run [Enqueue 1%nat] Examples.constructed_unbounded) = 1.
Proof. reflexivity. Qed.

(** ** The speed statistics *)
Section StatsFacts.

Local Open Scope Q_scope.
Import Stats.

Lemma py_min_is_min (a b : Q) : py_min a b == Qmin a b.
Proof.
  unfold py_min. destruct (Qlt_le_dec b a) as [Hlt | Hle].
  - symmetry. apply Q.min_r. apply Qlt_le_weak, Hlt.
  - symmetry. apply Q.min_l. exact Hle.
Qed.

Lemma epsilon_pos : 0 < epsilon.
Proof. reflexivity. Qed.

Lemma smoothed_pos (x : Q) : 0 <= x -> 0 < x + epsilon.
Proof.
  intros H. apply Qlt_le_trans with (0 + epsilon).
  - rewrite Qplus_0_l. exact epsilon_pos.
  - apply Qplus_le_l. exact H.
Qed.

Lemma percent_nonneg (x y : Q) : 0 <= x -> 0 <= y ->
  0 <= (x + epsilon) / (y + epsilon) * 100.
Proof.
  intros Hx Hy. apply Qmult_le_0_compat; [|discriminate].
  apply Qmult_le_0_compat.
  - apply Qlt_le_weak, smoothed_pos, Hx.
  - apply Qinv_le_0_compat, Qlt_le_weak, smoothed_pos, Hy.
Qed.

Lemma py_min_clamped (x : Q) : 0 <= x -> 0 <= py_min x 100 <= 100.
Proof.
  intros Hx. unfold py_min. destruct (Qlt_le_dec 100 x) as [Hlt | Hle].
  - split; [discriminate | apply Qle_refl].
  - split; assumption.
Qed.

Lemma speed_percentages_clamped_general (learn_avg fetch_avg iter_avg : Q)
    (tag_value_dict : gmap string Q) :
  0 <= learn_avg -> 0 <= fetch_avg -> 0 <= iter_avg ->
  let d := speed_tags learn_avg fetch_avg iter_avg tag_value_dict in
  let compute := py_min ((learn_avg + epsilon) / (iter_avg + epsilon) * 100) 100 in
  let io := py_min ((fetch_avg + epsilon) / (iter_avg + epsilon) * 100) 100 in
  d !! "speed/compute_bound_percent"%string = Some compute
  /\ d !! "speed/io_bound_percent"%string = Some io
  /\ (0 <= compute <= 100)
  /\ (0 <= io <= 100).
Proof.
  intros Hl Hf Hi d compute io.
  split.
  { subst d. unfold speed_tags. cbv zeta.
    rewrite lookup_insert_ne by discriminate. apply lookup_insert_eq. }
  split; [apply lookup_insert_eq|].
  split; apply py_min_clamped, percent_nonneg; assumption.
Qed.

(** C6. For non-negative running averages, the derivation stores
    [min((learn_avg + eps) / (iter_avg + eps) * 100, 100)] under
    [speed/compute_bound_percent] and
    [min((fetch_avg + eps) / (iter_avg + eps) * 100, 100)] under
    [speed/io_bound_percent]; the denominator is never zero; each value
    lies in [0, 100]; and the two need not sum to 100. *)
Theorem speed_percentages_clamped (learn_avg fetch_avg iter_avg : Q)
    (tag_value_dict : gmap string Q) :
  0 <= learn_avg -> 0 <= fetch_avg -> 0 <= iter_avg ->
  let d := speed_tags learn_avg fetch_avg iter_avg tag_value_dict in
  let compute := py_min ((learn_avg + epsilon) / (iter_avg + epsilon) * 100) 100 in
  let io := py_min ((fetch_avg + epsilon) / (iter_avg + epsilon) * 100) 100 in
  d !! "speed/compute_bound_percent"%string = Some compute
  /\ d !! "speed/io_bound_percent"%string = Some io
  /\ compute == Qmin ((learn_avg + epsilon) / (iter_avg + epsilon) * 100) 100
  /\ io == Qmin ((fetch_avg + epsilon) / (iter_avg + epsilon) * 100) 100
  /\ ~ iter_avg + epsilon == 0
  /\ (0 <= compute <= 100)
  /\ (0 <= io <= 100)
  /\ ~ py_min ((0 + epsilon) / (0 + epsilon) * 100) 100
       + py_min ((0 + epsilon) / (0 + epsilon) * 100) 100 == 100.
Proof.
  intros Hl Hf Hi d compute io.
  destruct (speed_percentages_clamped_general _ _ _ tag_value_dict Hl Hf Hi)
    as (Hc & Hio & Hcb & Hiob).
  split; [exact Hc|]. split; [exact Hio|].
  split; [apply py_min_is_min|]. split; [apply py_min_is_min|].
  split.
  { intros H0. pose proof (smoothed_pos _ Hi) as Hpos.
    rewrite H0 in Hpos. discriminate Hpos. }
  split; [exact Hcb|]. split; [exact Hiob|].
  vm_compute. discriminate.
Qed.

End StatsFacts.

Lemma speed_percentages_clamped_witness :
  let d := Stats.speed_tags (2 # 1) (12 # 1) (3 # 1) ∅ in
  d !! "speed/compute_bound_percent"%string
    = Some (Stats.py_min (((2 # 1) + Stats.epsilon) / ((3 # 1) + Stats.epsilon) * 100) 100)
  /\ (0 <= Stats.py_min (((12 # 1) + Stats.epsilon) / ((3 # 1) + Stats.epsilon) * 100) 100
      <= 100)%Q.
Proof.
  pose proof (speed_percentages_clamped (2 # 1) (12 # 1) (3 # 1) ∅) as H.
  destruct H as (Hc & _ & _ & _ & _ & _ & Hio & _);
    [discriminate | discriminate | discriminate |].
  split; [exact Hc | exact Hio].
Defined.

(** ** The registry *)
Section RegistryFacts.

Import Registry.

Lemma winner_stays (bases : list class_obj) :
  fold_left (fun m b => if derives (__class__ b) m then __class__ b else m)
            bases LearnerMeta = LearnerMeta.
Proof.
  induction bases as [|b bases IH]; [reflexivity|]. simpl.
  destruct (__class__ b); simpl; exact IH.
Qed.

Lemma winner_of_base (bases : list class_obj) (b : class_obj) (m : metaclass) :
  b ∈ bases -> __class__ b = LearnerMeta ->
  fold_left (fun m b => if derives (__class__ b) m then __class__ b else m)
            bases m = LearnerMeta.
Proof.
  intros Hin Hb. revert m.
  induction Hin as [b bases | b b' bases Hin IH]; intros m; simpl.
  - rewrite Hb. destruct m; simpl; apply winner_stays.
  - apply IH, Hb.
Qed.

Lemma winner_LearnerMeta (explicit : option metaclass) (bases : list class_obj) :
  explicit = Some LearnerMeta
    \/ (exists b, b ∈ bases /\ __class__ b = LearnerMeta) ->
  winner explicit bases = LearnerMeta.
Proof.
  intros [-> | (b & Hin & Hb)]; unfold winner.
  - apply winner_stays.
  - eapply winner_of_base; eassumption.
Qed.

Lemma class_stmt_registers (explicit : option metaclass) (name : string)
    (bases : list class_obj) (st : state) :
  winner explicit bases = LearnerMeta ->
  class_stmt explicit name bases st =
    (Class name (classes_created st) (class_id <$> bases) LearnerMeta,
     State (<[name := Class name (classes_created st) (class_id <$> bases)
                         LearnerMeta]> (learner_registry st))
           (S (classes_created st))).
Proof. intros H. unfold class_stmt. rewrite H. reflexivity. Qed.

(** C10. A class statement whose metaclass is [LearnerMeta], given
    explicitly or inherited from a base, stores the new class in
    [learner_registry] under its name, and [learnerFactory] of that name
    returns the class; this holds for [LearnerCore] and [Learner] once the
    module is loaded; and a later class statement with the same name
    replaces the earlier entry without any error. *)
Theorem registry_round_trip :
  (forall explicit name bases st,
      explicit = Some LearnerMeta
        \/ (exists b, b ∈ bases /\ __class__ b = LearnerMeta) ->
      let cls := (class_stmt explicit name bases st).1 in
      let st' := (class_stmt explicit name bases st).2 in
      __name__ cls = name
      /\ __class__ cls = LearnerMeta
      /\ learner_registry st' !! name = Some cls
      /\ learnerFactory (__name__ cls) st' = Normal cls)
  /\ (learnerFactory "LearnerCore" load_module.2 = Normal load_module.1.1
      /\ learnerFactory "Learner" load_module.2 = Normal load_module.1.2
      /\ __class__ load_module.1.2 = LearnerMeta)
  /\ (forall explicit1 explicit2 name bases1 bases2 st,
      explicit1 = Some LearnerMeta
        \/ (exists b, b ∈ bases1 /\ __class__ b = LearnerMeta) ->
      explicit2 = Some LearnerMeta
        \/ (exists b, b ∈ bases2 /\ __class__ b = LearnerMeta) ->
      let first := class_stmt explicit1 name bases1 st in
      let second := class_stmt explicit2 name bases2 first.2 in
      learnerFactory name first.2 = Normal first.1
      /\ learnerFactory name second.2 = Normal second.1
      /\ second.1 <> first.1).
Proof.
  split; [|split].
  - intros explicit name bases st Hmeta cls st'. subst cls st'.
    rewrite (class_stmt_registers _ _ _ _ (winner_LearnerMeta _ _ Hmeta)).
    unfold learnerFactory. simpl. rewrite lookup_insert_eq. auto.
  - vm_compute. auto.
  - intros explicit1 explicit2 name bases1 bases2 st H1 H2 first second.
    subst second first.
    rewrite (class_stmt_registers _ _ _ _ (winner_LearnerMeta _ _ H1)).
    cbn [fst snd].
    rewrite (class_stmt_registers _ _ _ _ (winner_LearnerMeta _ _ H2)).
    unfold learnerFactory. cbn [fst snd learner_registry classes_created].
    rewrite !lookup_insert_eq. split; [reflexivity|]. split; [reflexivity|].
    intros Heq. injection Heq as Hid _. lia.
Qed.

End RegistryFacts.

Lemma registry_round_trip_witness :
  let first := Registry.class_stmt (Some Registry.LearnerMeta) "DDPGLearner" []
                 Registry.empty_module in
  let second := Registry.class_stmt None "DDPGLearner" [first.1] first.2 in
  Registry.learnerFactory "DDPGLearner" first.2 = Normal first.1
  /\ Registry.learnerFactory "DDPGLearner" second.2 = Normal second.1
  /\ second.1 <> first.1.
Proof.
  intros first second.
  destruct registry_round_trip as (_ & _ & H).
  apply (H (Some Registry.LearnerMeta) None "DDPGLearner" [] [first.1]
           Registry.empty_module).
  - left. reflexivity.
  - right. exists first.1. split; [apply list_elem_of_here | reflexivity].
Defined.

(** ** The learner core *)
Section LearnerFacts.

Context {Batch Model RetVal ModuleDict Payload : Type}.
Variable impl : Impl Batch Model RetVal ModuleDict Payload.
Implicit Types (w : World Batch Model ModuleDict Payload) (b : Batch).

(** *** Inversion of computations that return *)

Lemma bind_normal {A B : Type} (c : M Batch Model ModuleDict Payload A)
    (k : A -> M Batch Model ModuleDict Payload B) w (y : B) w' :
  bind c k w = (Normal y, w') ->
  exists a w1, c w = (Normal a, w1) /\ k a w1 = (Normal y, w').
Proof.
  unfold bind. destruct (c w) as [[a|e|] w1]; intros H;
    [eauto | discriminate | discriminate].
Qed.

Lemma time_normal {A : Type} (r : loc) (body : M Batch Model ModuleDict Payload A)
    w (x : A) w' :
  time r body w = (Normal x, w') ->
  exists w1, body w = (Normal x, w1)
    /\ w' = set_timers (alter (add_value (clock w1 - clock w)) r) w1.
Proof.
  unfold time. intros H.
  apply bind_normal in H as (pre & w0 & Hpre & H).
  injection Hpre as <- <-.
  apply bind_normal in H as (x' & w1 & Hbody & H).
  exists w1. unfold bind, time_time, gets, modify, ret in H.
  injection H as <- <-. auto.
Qed.

(** What a returning [Queue_get] has done: only the queue, the feed, the
    clock and the log have moved. *)
Lemma Queue_get_normal w b w1 :
  Queue_get w = (Normal b, w1) ->
  (events w1 = events w ++ [EvGet b] \/ events w1 = events w ++ [EvPut b; EvGet b])
  /\ clock w1 = clock w + hd 0 (elapse w)
  /\ elapse w1 = tl (elapse w)
  /\ self w1 = self w /\ timers w1 = timers w /\ model w1 = model w
  /\ wire w1 = wire w /\ publishers w1 = publishers w
  /\ timer (prefetch_queue w1) = timer (prefetch_queue w)
  /\ _enqueue_thread (prefetch_queue w1) = _enqueue_thread (prefetch_queue w)
  /\ _client (prefetch_queue w1) = _client (prefetch_queue w)
  /\ queue_items w ++ feed w = b :: queue_items w1 ++ feed w1.
Proof.
  destruct w as [s [[m its] bs c t r] ts md ck el fd ev pb wr].
  unfold Queue_get, PyQueue.get, queue_items; simpl.
  destruct its as [|item rest]; simpl.
  - destruct fd as [|item rest]; [discriminate|].
    unfold bind, spend, modify, Queue_put, gets, log, ret; simpl.
    rewrite put_on_empty. simpl.
    intros H. injection H as <- <-. simpl.
    rewrite <- app_assoc. simpl. repeat split; auto.
  - unfold bind, spend, modify, gets, log, ret; simpl.
    intros H. injection H as <- <-. simpl. repeat split; auto.
Qed.

Lemma dequeue_normal w b w' :
  dequeue w = (Normal b, w') ->
  exists w1, Queue_get w = (Normal b, w1)
    /\ w' = set_timers
              (alter (add_value (clock w1 - clock w)) (timer (prefetch_queue w)))
              w1.
Proof.
  unfold dequeue. intros H.
  apply bind_normal in H as (r & w0 & Hr & H). injection Hr as <- <-.
  apply time_normal in H. exact H.
Qed.

Lemma learn_normal b w (r : RetVal) w' :
  learn impl b w = (Normal r, w') ->
  exists f m', learn_override impl = Some f
    /\ f b (model w) = (Normal r, m')
    /\ w' = set_model m'
              (set_clock (clock w + hd 0 (elapse w)) (tl (elapse w))
                 (set_events (events w ++ [EvLearn b]) w)).
Proof.
  unfold learn, bind, log, spend, modify; simpl.
  destruct (learn_override impl) as [f|]; [|discriminate]. simpl.
  destruct (f b (model w)) as [o m'] eqn:Hf; simpl.
  intros H. injection H as -> <-. exists f, m'. auto.
Qed.

Lemma publish_parameter_normal (i : nat) (message : string) w w' :
  publish_parameter impl i message w = (Normal tt, w') ->
  exists p payload, _ps_publisher (self w) = Some p
    /\ dumps impl (publisher_module_dict p) (model w) = Some payload
    /\ w' = set_wire (wire w ++ [(i, message, payload)])
              (set_clock (clock w + hd 0 (elapse w)) (tl (elapse w))
                 (set_events (events w ++ [EvPublish i message]) w)).
Proof.
  unfold publish_parameter, publish, bind, gets, log, spend, modify; simpl.
  destruct (_ps_publisher (self w)) as [p|]; [|discriminate]. simpl.
  destruct (dumps impl (publisher_module_dict p) (model w)) as [payload|] eqn:Hd;
    [|discriminate].
  intros H. injection H as <-. exists p, payload. auto.
Qed.

(** One turn of the loop body that returns. *)
Lemma loop_body_normal (i : nat) b w w' :
  loop_body impl i b w = (Normal tt, w') ->
  exists w1 w2 (r : RetVal),
    learn impl b w = (Normal r, w1)
    /\ publish_parameter impl i ("batch " +:+ str i) 
         (set_timers (alter (add_value (clock w1 - clock w)) (learn_timer (self w))) w1)
       = (Normal tt, w2)
    /\ w' = set_timers (alter (add_value (clock w2 - clock w)) (iter_timer (self w))) w2.
Proof.
  unfold loop_body. intros H.
  apply bind_normal in H as (it & w0 & Hit & H). injection Hit as <- <-.
  apply bind_normal in H as (lt & w0 & Hlt & H). injection Hlt as <- <-.
  apply time_normal in H as (w2 & H & ->).
  apply bind_normal in H as (r & w1' & Hl & H).
  apply time_normal in Hl as (w1 & Hl & ->).
  exists w1, w2, r. auto.
Qed.

Lemma fetch_batch_events w b w1 :
  fetch_batch w = (Normal b, w1) ->
  events w1 = events w ++ [EvGet b] \/ events w1 = events w ++ [EvPut b; EvGet b].
Proof.
  unfold fetch_batch. intros H.
  apply dequeue_normal in H as (w0 & Hg & ->).
  apply Queue_get_normal in Hg as (He & _). exact He.
Qed.

Lemma loop_body_events (i : nat) b w w' :
  loop_body impl i b w = (Normal tt, w') ->
  events w' = events w ++ [EvLearn b; EvPublish i ("batch " +:+ str i)].
Proof.
  intros H. apply loop_body_normal in H as (w1 & w2 & r & Hl & Hp & ->).
  apply learn_normal in Hl as (f & m' & _ & _ & ->).
  apply publish_parameter_normal in Hp as (p & payload & _ & _ & ->).
  simpl. rewrite <- app_assoc. reflexivity.
Qed.

Lemma training_events_app (l1 l2 : list (event Batch)) :
  training_events (l1 ++ l2) = training_events l1 ++ training_events l2.
Proof. apply flat_map_app. Qed.

Lemma publish_calls_app (l1 l2 : list (event Batch)) :
  publish_calls (l1 ++ l2) = publish_calls l1 ++ publish_calls l2.
Proof. apply flat_map_app. Qed.

Lemma main_loop_from_events (n i : nat) w w' :
  main_loop_from impl n i w = (Normal tt, w') ->
  exists (batches : list Batch) (new : list (event Batch)),
    length batches = n
    /\ events w' = events w ++ new
    /\ training_events new = flat_map iteration_events (zip (seq i n) batches)
    /\ publish_calls new = (fun j => (j, "batch " +:+ str j)) <$> seq i n.
Proof.
  revert i w. induction n as [|n IH]; intros i w H.
  - injection H as <-. exists [], []. rewrite app_nil_r. auto.
  - simpl in H.
    apply bind_normal in H as (b & w1 & Hf & H).
    apply bind_normal in H as ([] & w2 & Hb & H).
    apply IH in H as (batches & new & Hlen & He & Ht & Hp).
    apply loop_body_events in Hb.
    exists (b :: batches).
    destruct (fetch_batch_events _ _ _ Hf) as [Hg | Hg].
    + exists ([EvGet b; EvLearn b; EvPublish i ("batch " +:+ str i)] ++ new).
      split; [simpl; congruence|]. split.
      { rewrite He, Hb, Hg, <- !app_assoc. reflexivity. }
      rewrite training_events_app, publish_calls_app, Ht, Hp. auto.
    + exists ([EvPut b; EvGet b; EvLearn b; EvPublish i ("batch " +:+ str i)] ++ new).
      split; [simpl; congruence|]. split.
      { rewrite He, Hb, Hg, <- !app_assoc. reflexivity. }
      rewrite training_events_app, publish_calls_app, Ht, Hp. auto.
Qed.

(** C1. After [n] iterations of the main loop, [publish] has been called
    exactly [n] times, the call of iteration [i] carrying the index [i] and
    the message ["batch i"], for [i = 0 .. n-1] in this order; and in each
    iteration the training thread does one dequeue, then one [learn] on the
    batch dequeued, then the publish. *)
Theorem main_loop_publishes (n : nat) w w' :
  main_loop impl n w = (Normal tt, w') ->
  exists (batches : list Batch) (new : list (event Batch)),
    length batches = n
    /\ events w' = events w ++ new
    /\ training_events new = flat_map iteration_events (zip (seq 0 n) batches)
    /\ publish_calls new = (fun i => (i, "batch " +:+ str i)) <$> seq 0 n
    /\ length (publish_calls new) = n.
Proof.
  intros H. apply main_loop_from_events in H as (batches & new & Hl & He & Ht & Hp).
  exists batches, new. repeat split; try assumption.
  rewrite Hp, length_fmap, length_seq. reflexivity.
Qed.

(** *** The loop does run: enough batches, a working learner and an
    initialized publisher give [n] complete iterations. *)

Lemma fetch_batch_runs w :
  queue_items w ++ feed w <> [] ->
  exists b w1, fetch_batch w = (Normal b, w1)
    /\ self w1 = self w /\ model w1 = model w
    /\ queue_items w ++ feed w = b :: queue_items w1 ++ feed w1.
Proof.
  intros Hne. unfold fetch_batch.
  assert (exists b w1, dequeue w = (Normal b, w1)) as (b & w1 & Hd).
  { destruct (queue_items w) as [|item rest] eqn:Hq.
    - destruct (feed w) as [|item rest] eqn:Hf; [contradiction|].
      destruct (dequeue_from_feed _ _ _ Hq Hf) as (w1 & Hd & _). eauto.
    - destruct (dequeue_nonempty _ _ _ Hq) as (w1 & Hd & _). eauto. }
  exists b, w1. split; [exact Hd|].
  apply dequeue_normal in Hd as (w0 & Hg & ->).
  apply Queue_get_normal in Hg
    as (_ & _ & _ & Hs & _ & Hm & _ & _ & _ & _ & _ & Hsupply).
  simpl. auto.
Qed.

Lemma loop_body_runs (i : nat) b w p f :
  _ps_publisher (self w) = Some p ->
  learn_override impl = Some f ->
  (forall b m, exists r m', f b m = (Normal r, m')) ->
  (forall m, is_Some (dumps impl (publisher_module_dict p) m)) ->
  exists w', loop_body impl i b w = (Normal tt, w')
    /\ self w' = self w /\ prefetch_queue w' = prefetch_queue w
    /\ feed w' = feed w.
Proof.
  intros Hp Hlo Hf Hd.
  destruct (Hf b (model w)) as (r & m' & Hfb).
  destruct (Hd m') as [payload Hpay].
  cbv beta delta [loop_body time bind gets time_time learn log spend modify
    publish_parameter publish ret].
  simpl. rewrite Hlo. simpl. rewrite Hfb. simpl. rewrite Hp. simpl.
  rewrite Hpay. simpl. eexists. split; [reflexivity|]. simpl. auto.
Qed.

Lemma main_loop_from_runs (n i : nat) w p f :
  _ps_publisher (self w) = Some p ->
  learn_override impl = Some f ->
  (forall b m, exists r m', f b m = (Normal r, m')) ->
  (forall m, is_Some (dumps impl (publisher_module_dict p) m)) ->
  (n <= length (queue_items w ++ feed w))%nat ->
  exists w', main_loop_from impl n i w = (Normal tt, w').
Proof.
  intros Hp Hlo Hf Hd. revert i w Hp.
  induction n as [|n IH]; intros i w Hp Hn; simpl.
  - eexists. reflexivity.
  - destruct (fetch_batch_runs w) as (b & w1 & Hfb & Hs1 & _ & Hsupply).
    { intros Hnil. rewrite Hnil in Hn. simpl in Hn. lia. }
    destruct (loop_body_runs i b w1 p f) as (w2 & Hb & Hs2 & Hq2 & Hf2);
      try assumption.
    { rewrite Hs1. exact Hp. }
    destruct (IH (S i) w2) as (w' & Hrun).
    { rewrite Hs2, Hs1. exact Hp. }
    { unfold queue_items in *. rewrite Hq2, Hf2.
      rewrite Hsupply in Hn. simpl in Hn. lia. }
    exists w'. unfold bind. rewrite Hfb, Hb. exact Hrun.
Qed.

(** *** One-time initialization *)

Lemma _initialize_normal w w1 :
  _initialize impl w = (Normal tt, w1) ->
  exists g md,
    module_dict_override impl = Some g
    /\ g (model w) = Normal md
    /\ _enqueue_thread (prefetch_queue w) = None
    /\ _enqueue_thread (prefetch_queue w1) = Some the_client
    /\ model w1 = model w
    /\ _ps_port (self w1) = _ps_port (self w)
    /\ _ps_publisher (self w1)
         = Some (Publisher (publishers w) (_ps_port (self w)) md)
    /\ publishers w1 = S (publishers w)
    /\ starts (_client (prefetch_queue w1))
         = S (starts (_client (prefetch_queue w)))
    /\ events w1 = events w ++ [EvModuleDict;
                                EvPublisherNew (publishers w) (_ps_port (self w));
                                EvClientStart].
Proof.
  cbv beta delta [_initialize module_dict ParameterPublisher_new
    start_enqueue_thread client_start bind gets log modify raise ret].
  simpl.
  destruct (module_dict_override impl) as [g|]; [|discriminate]. simpl.
  destruct (g (model w)) as [md| |] eqn:Hg; try discriminate. simpl.
  destruct (_enqueue_thread (prefetch_queue w)) as [t|] eqn:Ht;
    [discriminate|]. simpl.
  intros H. injection H as <-. exists g, md. simpl.
  rewrite <- !app_assoc. simpl. repeat split; auto.
Qed.

Lemma _initialize_again w g md t :
  module_dict_override impl = Some g ->
  g (model w) = Normal md ->
  _enqueue_thread (prefetch_queue w) = Some t ->
  exists w2,
    _initialize impl w
      = (Raise (RuntimeError "Enqueue thread is already running"), w2)
    /\ prefetch_queue w2 = prefetch_queue w
    /\ _ps_publisher (self w2)
         = Some (Publisher (publishers w) (_ps_port (self w)) md)
    /\ events w2 = events w ++ [EvModuleDict;
                                EvPublisherNew (publishers w) (_ps_port (self w))].
Proof.
  intros Ho Hg Ht.
  cbv beta delta [_initialize module_dict ParameterPublisher_new
    start_enqueue_thread client_start bind gets log modify raise ret].
  simpl. rewrite Ho. simpl. rewrite Hg. simpl. rewrite Ht. simpl.
  eexists. split; [reflexivity|]. simpl.
  rewrite <- !app_assoc. simpl. auto.
Qed.

Lemma client_starts_app (l1 l2 : list (event Batch)) :
  client_starts (l1 ++ l2) = (client_starts l1 + client_starts l2)%nat.
Proof. unfold client_starts. rewrite flat_map_app, length_app. reflexivity. Qed.

(** C3. After a first call of [_initialize] that returned, a second call
    raises [RuntimeError] at once, and it starts no fetch task: the client
    has been started once, by the first call, and the prefetch queue with
    its client is left as it was. *)
Theorem second_initialize_fails w w1 :
  _initialize impl w = (Normal tt, w1) ->
  exists w2,
    _initialize impl w1
      = (Raise (RuntimeError "Enqueue thread is already running"), w2)
    /\ starts (_client (prefetch_queue w1))
         = S (starts (_client (prefetch_queue w)))
    /\ starts (_client (prefetch_queue w2))
         = starts (_client (prefetch_queue w1))
    /\ client_starts (events w2) = client_starts (events w1)
    /\ prefetch_queue w2 = prefetch_queue w1.
Proof.
  intros H.
  apply _initialize_normal in H
    as (g & md & Ho & Hg & _ & Ht & Hm & _ & _ & _ & Hs & _).
  rewrite <- Hm in Hg.
  destruct (_initialize_again w1 g md the_client Ho Hg Ht)
    as (w2 & Hrun & Hq & _ & He).
  exists w2. split; [exact Hrun|]. split; [exact Hs|].
  split; [rewrite Hq; reflexivity|]. split; [|exact Hq].
  rewrite He, client_starts_app. unfold client_starts. simpl. lia.
Qed.

(** C9. The second call of [_initialize] does not leave the learner as it
    was: it calls [module_dict()] again, builds a new publisher from the
    result and installs it in place of the first one, and only then
    raises. *)
Theorem second_initialize_replaces_publisher w w1 :
  _initialize impl w = (Normal tt, w1) ->
  exists p1 p2 w2,
    _ps_publisher (self w1) = Some p1
    /\ _initialize impl w1
         = (Raise (RuntimeError "Enqueue thread is already running"), w2)
    /\ _ps_publisher (self w2) = Some p2
    /\ publisher_id p2 = S (publisher_id p1)
    /\ p2 <> p1
    /\ events w2 = events w1 ++ [EvModuleDict;
                                 EvPublisherNew (publisher_id p2)
                                                (_ps_port (self w1))]
    /\ w2 <> w1.
Proof.
  intros H.
  apply _initialize_normal in H
    as (g & md & Ho & Hg & _ & Ht & Hm & Hport & Hp1 & Hn & _ & _).
  rewrite <- Hm in Hg.
  destruct (_initialize_again w1 g md the_client Ho Hg Ht)
    as (w2 & Hrun & _ & Hp2 & He).
  eexists _, _, w2. split; [exact Hp1|]. split; [exact Hrun|].
  split; [exact Hp2|]. simpl. split; [exact Hn|]. split.
  { intros Heq. injection Heq as Hid _. lia. }
  split; [exact He|].
  intros Heq. rewrite Heq in Hp2. rewrite Hp1 in Hp2.
  injection Hp2 as Hid _. lia.
Qed.

(** *** Timing *)

(** [_initialize] touches no timer and rebinds none of them. *)
Lemma _initialize_timers w :
  let w1 := (_initialize impl w).2 in
  timers w1 = timers w
  /\ fetch_timer (self w1) = fetch_timer (self w)
  /\ learn_timer (self w1) = learn_timer (self w)
  /\ iter_timer (self w1) = iter_timer (self w)
  /\ timer (prefetch_queue w1) = timer (prefetch_queue w).
Proof.
  cbv beta delta [_initialize module_dict ParameterPublisher_new
    start_enqueue_thread client_start bind gets log modify raise ret].
  simpl.
  destruct (module_dict_override impl) as [g|]; simpl; [|auto].
  destruct (g (model w)) as [md| |]; simpl; auto.
  destruct (_enqueue_thread (prefetch_queue w)) as [t|]; simpl; auto.
Qed.

Lemma fetch_batch_timing w b w' :
  fetch_batch w = (Normal b, w') ->
  clock w' = clock w + hd 0 (elapse w)
  /\ elapse w' = tl (elapse w)
  /\ timers w' = alter (add_value (clock w' - clock w))
                       (timer (prefetch_queue w)) (timers w)
  /\ self w' = self w
  /\ timer (prefetch_queue w') = timer (prefetch_queue w).
Proof.
  unfold fetch_batch. intros H.
  apply dequeue_normal in H as (w0 & Hg & ->).
  apply Queue_get_normal in Hg
    as (_ & Hc & He & Hs & Ht & _ & _ & _ & Hr & _).
  simpl. rewrite Ht. auto.
Qed.

Lemma loop_body_timing (i : nat) b w w' :
  loop_body impl i b w = (Normal tt, w') ->
  clock w' = clock w + hd 0 (elapse w) + hd 0 (tl (elapse w))
  /\ timers w' = alter (add_value (clock w' - clock w)) (iter_timer (self w))
                   (alter (add_value (hd 0 (elapse w))) (learn_timer (self w))
                      (timers w))
  /\ self w' = self w
  /\ timer (prefetch_queue w') = timer (prefetch_queue w).
Proof.
  intros H. apply loop_body_normal in H as (w1 & w2 & r & Hl & Hp & ->).
  apply learn_normal in Hl as (f & m' & _ & _ & ->).
  apply publish_parameter_normal in Hp as (p & payload & _ & _ & ->).
  simpl. repeat split; try reflexivity.
  replace (clock w + hd 0 (elapse w) - clock w) with (hd 0 (elapse w)) by lia.
  reflexivity.
Qed.

(** The three samples of one iteration: the fetch timer gets the time
    spent in [dequeue()], the learn timer the time spent in [learn], and
    the iteration timer the time from the end of the dequeue to the end of
    the publish. *)
Lemma iteration_timing (i : nat) w b w1 w2 :
  fetch_batch w = (Normal b, w1) ->
  loop_body impl i b w1 = (Normal tt, w2) ->
  timers w2 =
    alter (add_value (clock w2 - clock w1)) (iter_timer (self w))
      (alter (add_value (hd 0 (elapse w1))) (learn_timer (self w))
         (alter (add_value (clock w1 - clock w)) (timer (prefetch_queue w))
            (timers w)))
  /\ clock w2 - clock w = (clock w1 - clock w) + (clock w2 - clock w1).
Proof.
  intros Hf Hb.
  apply fetch_batch_timing in Hf as (_ & _ & Ht1 & Hs1 & _).
  apply loop_body_timing in Hb as (_ & Ht2 & _ & _).
  rewrite Ht2, Ht1, Hs1. split; [reflexivity | lia].
Qed.

(** C7. The learner's [fetch_timer] is the queue's own timer object, from
    construction on and through initialization, and it is not one of the
    two other timers; a [dequeue()] that returns adds to that timer one
    sample, the wall-clock time between the consumer's entry into
    [dequeue()] and its return. *)
Theorem fetch_timer_records_dequeue :
  (forall (sampler_host : string)
          (sampler_port ps_publish_port batch_size max_prefetch_batch_queue : Z)
          (model0 : Model) (elapse0 : list Z) (feed0 : list Batch),
      let w0 := LearnerCore_init (ModuleDict:=ModuleDict) (Payload:=Payload)
                  sampler_host sampler_port ps_publish_port batch_size
                  max_prefetch_batch_queue model0 elapse0 feed0 in
      let w1 := (_initialize impl w0).2 in
      fetch_timer (self w0) = timer (prefetch_queue w0)
      /\ fetch_timer (self w0) <> learn_timer (self w0)
      /\ fetch_timer (self w0) <> iter_timer (self w0)
      /\ timers w0 !! fetch_timer (self w0) = Some new_TimeRecorder
      /\ fetch_timer (self w1) = timer (prefetch_queue w1))
  /\ (forall w b w' (r : TimeRecorder),
      fetch_timer (self w) = timer (prefetch_queue w) ->
      timers w !! fetch_timer (self w) = Some r ->
      fetch_batch w = (Normal b, w') ->
      timers w' = alter (add_value (clock w' - clock w))
                        (fetch_timer (self w)) (timers w)
      /\ timers w' !! fetch_timer (self w')
           = Some (add_value (clock w' - clock w) r)
      /\ fetch_timer (self w') = timer (prefetch_queue w')).
Proof.
  split.
  - intros. subst w1.
    destruct (_initialize_timers w0) as (_ & Hf & _ & _ & Hq).
    rewrite Hf, Hq. subst w0. simpl. repeat split; auto.
  - intros w b w' r Halias Hr H.
    apply fetch_batch_timing in H as (_ & _ & Ht & Hs & Hq).
    rewrite Hs, Hq, Halias. rewrite Halias in Hr.
    split; [rewrite Ht; reflexivity|].
    split; [|reflexivity].
    rewrite Ht, list_lookup_alter_eq. unfold loc in *. rewrite Hr. reflexivity.
Qed.

(** *** The statistics read from the learner's timers *)

Lemma avg_nonneg (r : TimeRecorder) : 0 <= tr_total r -> (0 <= avg r)%Q.
Proof.
  intros H. unfold avg. destruct (tr_count r) as [|k] eqn:Hk; [discriminate|].
  apply Qmult_le_0_compat.
  - unfold Qle. simpl. lia.
  - apply Qinv_le_0_compat. unfold Qle. simpl. lia.
Qed.

(** [update_tensorplex] on a learner whose timers hold non-negative
    totals: both percentages are present and lie in [0, 100]. *)
Lemma update_tensorplex_clamped (tag_value_dict : gmap string Q) w :
  (forall (l : loc) r, timers w !! l = Some r -> 0 <= tr_total r) ->
  exists compute io : Q,
    update_tensorplex tag_value_dict w !! "speed/compute_bound_percent"%string
      = Some compute
    /\ update_tensorplex tag_value_dict w !! "speed/io_bound_percent"%string
      = Some io
    /\ (0 <= compute <= 100)%Q /\ (0 <= io <= 100)%Q.
Proof.
  intros Hpos. unfold update_tensorplex.
  assert (forall l : loc,
             (0 <= avg (default new_TimeRecorder (timers w !! l)))%Q) as Havg.
  { intros l. destruct (timers w !! l) as [r|] eqn:Hl; simpl.
    - apply avg_nonneg. eapply Hpos, Hl.
    - discriminate. }
  destruct (speed_percentages_clamped_general
              _ _ _ tag_value_dict
              (Havg (learn_timer (self w))) (Havg (fetch_timer (self w)))
              (Havg (iter_timer (self w))))
    as (Hc & Hio & Hcb & Hiob).
  eauto 10.
Qed.

Lemma main_loop_runs (n : nat) w p f :
  _ps_publisher (self w) = Some p ->
  learn_override impl = Some f ->
  (forall b m, exists r m', f b m = (Normal r, m')) ->
  (forall m, is_Some (dumps impl (publisher_module_dict p) m)) ->
  (n <= length (queue_items w ++ feed w))%nat ->
  exists w', main_loop impl n w = (Normal tt, w').
Proof. apply main_loop_from_runs. Qed.

End LearnerFacts.

(** ** The value returned by [learn] *)
Section ReturnValue.

Context {Batch Model R1 R2 ModuleDict Payload : Type}.
Variable impl1 : Impl Batch Model R1 ModuleDict Payload.
Variable impl2 : Impl Batch Model R2 ModuleDict Payload.
Implicit Types (w : World Batch Model ModuleDict Payload) (b : Batch).

Lemma bind_gets {A B : Type} (f : World Batch Model ModuleDict Payload -> A)
    (k : A -> M Batch Model ModuleDict Payload B) w :
  bind (gets f) k w = k (f w) w.
Proof. reflexivity. Qed.

Lemma time_ext {A : Type} (r : loc) (c1 c2 : M Batch Model ModuleDict Payload A) w :
  c1 w = c2 w -> time r c1 w = time r c2 w.
Proof.
  intros H. cbv beta delta [time bind time_time gets modify ret]. simpl.
  rewrite H. reflexivity.
Qed.

Lemma time_void {A B : Type} (r : loc) (c1 : M Batch Model ModuleDict Payload A)
    (c2 : M Batch Model ModuleDict Payload B) w :
  void (c1 w).1 = void (c2 w).1 -> (c1 w).2 = (c2 w).2 ->
  void (time r c1 w).1 = void (time r c2 w).1
  /\ (time r c1 w).2 = (time r c2 w).2.
Proof.
  cbv beta delta [time bind time_time gets modify ret]. simpl.
  destruct (c1 w) as [[a|e|] w1], (c2 w) as [[a'|e'|] w2]; simpl;
    intros Ho Hw; try discriminate; subst; auto.
Qed.

Lemma bind_void {A B C : Type} (c1 : M Batch Model ModuleDict Payload A)
    (c2 : M Batch Model ModuleDict Payload B)
    (k1 k2 : M Batch Model ModuleDict Payload C) w :
  void (c1 w).1 = void (c2 w).1 -> (c1 w).2 = (c2 w).2 ->
  (forall w', k1 w' = k2 w') ->
  bind c1 (fun _ => k1) w = bind c2 (fun _ => k2) w.
Proof.
  unfold bind.
  destruct (c1 w) as [[a|e|] w1], (c2 w) as [[a'|e'|] w2]; simpl;
    intros Ho Hw Hk; try discriminate; subst; auto.
  injection Ho as ->. reflexivity.
Qed.

Hypothesis agree : agree_up_to_returned impl1 impl2.

Lemma learn_agree b w :
  void (learn impl1 b w).1 = void (learn impl2 b w).1
  /\ (learn impl1 b w).2 = (learn impl2 b w).2.
Proof.
  destruct agree as [_ Hl].
  cbv beta delta [learn bind log spend modify raise]. simpl.
  destruct (learn_override impl1) as [f1|], (learn_override impl2) as [f2|];
    try contradiction; simpl; [|auto].
  match goal with
  | |- context [f1 b ?m] => destruct (Hl b m) as [Ho Hm]
  end.
  destruct (f1 b _) as [o1 m1], (f2 b _) as [o2 m2]. simpl in *.
  subst. auto.
Qed.

Lemma publish_parameter_agree (i : nat) (message : string) w :
  publish_parameter impl1 i message w = publish_parameter impl2 i message w.
Proof.
  destruct agree as [Hd _].
  cbv beta delta [publish_parameter publish bind gets log spend modify raise].
  simpl. destruct (_ps_publisher (self w)) as [p|]; [|reflexivity]. simpl.
  rewrite Hd. reflexivity.
Qed.

Lemma loop_body_agree (i : nat) b w :
  loop_body impl1 i b w = loop_body impl2 i b w.
Proof.
  unfold loop_body. rewrite !bind_gets.
  apply time_ext.
  destruct (learn_agree b w) as [Ho Hw].
  destruct (time_void (learn_timer (self w)) _ _ w Ho Hw) as [Ho' Hw'].
  apply bind_void; [exact Ho' | exact Hw' |].
  intros w'. apply publish_parameter_agree.
Qed.

Lemma main_loop_from_agree (n i : nat) w :
  main_loop_from impl1 n i w = main_loop_from impl2 n i w.
Proof.
  revert i w. induction n as [|n IH]; intros i w; [reflexivity|].
  simpl. unfold bind at 1 3.
  destruct (fetch_batch w) as [[b|e|] w1]; try reflexivity.
  unfold bind. rewrite loop_body_agree.
  destruct (loop_body impl2 i b w1) as [[[]|e|] w2]; try reflexivity.
  apply IH.
Qed.

(** C8, as amended. The core does not interpret the value returned by
    [learn(batch)]: [main_loop] drops it, so that two learners that differ
    only in the values returned drive the loop through the same states to
    the same outcome. *)
Theorem learn_return_value_ignored (n : nat) w :
  main_loop impl1 n w = main_loop impl2 n w.
Proof. apply main_loop_from_agree. Qed.

End ReturnValue.

(** ** The properties on the toy learner *)

Lemma main_loop_publishes_witness :
  main_loop (Examples.toy 0) 2 Examples.initialized = (Normal tt, Examples.after_two)
  /\ exists (batches : list nat) (new : list (event nat)),
      length batches = 2%nat
      /\ events Examples.after_two = events Examples.initialized ++ new
      /\ training_events new = flat_map iteration_events (zip (seq 0 2) batches)
      /\ publish_calls new = (fun i => (i, "batch " +:+ str i)) <$> seq 0 2
      /\ length (publish_calls new) = 2%nat.
Proof.
  split; [vm_compute; reflexivity|].
  apply (main_loop_publishes (Examples.toy 0) 2 Examples.initialized
           Examples.after_two).
  vm_compute; reflexivity.
Defined.

Lemma second_initialize_fails_witness :
  _initialize (Examples.toy 0) Examples.constructed
    = (Normal tt, Examples.initialized)
  /\ exists w2,
      _initialize (Examples.toy 0) Examples.initialized
        = (Raise (RuntimeError "Enqueue thread is already running"), w2)
      /\ starts (_client (prefetch_queue Examples.initialized))
           = S (starts (_client (prefetch_queue Examples.constructed)))
      /\ starts (_client (prefetch_queue w2))
           = starts (_client (prefetch_queue Examples.initialized))
      /\ client_starts (events w2) = client_starts (events Examples.initialized)
      /\ prefetch_queue w2 = prefetch_queue Examples.initialized.
Proof.
  split; [vm_compute; reflexivity|].
  apply (second_initialize_fails (Examples.toy 0) Examples.constructed
           Examples.initialized).
  vm_compute; reflexivity.
Defined.

Lemma second_initialize_replaces_publisher_witness :
  _initialize (Examples.toy 0) Examples.constructed
    = (Normal tt, Examples.initialized)
  /\ exists p1 p2 w2,
      _ps_publisher (self Examples.initialized) = Some p1
      /\ _initialize (Examples.toy 0) Examples.initialized
           = (Raise (RuntimeError "Enqueue thread is already running"), w2)
      /\ _ps_publisher (self w2) = Some p2
      /\ publisher_id p2 = S (publisher_id p1)
      /\ p2 <> p1
      /\ events w2 = events Examples.initialized
                       ++ [EvModuleDict;
                           EvPublisherNew (publisher_id p2)
                                          (_ps_port (self Examples.initialized))]
      /\ w2 <> Examples.initialized.
Proof.
  split; [vm_compute; reflexivity|].
  apply (second_initialize_replaces_publisher (Examples.toy 0)
           Examples.constructed Examples.initialized).
  vm_compute; reflexivity.
Defined.

Lemma fetch_timer_records_dequeue_witness :
  fetch_batch Examples.initialized = (Normal 10%nat, Examples.after_fetch)
  /\ clock Examples.after_fetch - clock Examples.initialized = 5
  /\ timers Examples.after_fetch !! fetch_timer (self Examples.after_fetch)
       = Some (add_value (clock Examples.after_fetch - clock Examples.initialized)
                         new_TimeRecorder).
Proof.
  split; [vm_compute; reflexivity|]. split; [vm_compute; reflexivity|].
  destruct (fetch_timer_records_dequeue (RetVal:=nat) (Examples.toy 0)) as [_ H].
  apply (H Examples.initialized 10%nat Examples.after_fetch new_TimeRecorder);
    vm_compute; reflexivity.
Defined.

Lemma learn_return_value_ignored_witness :
  agree_up_to_returned (Examples.toy 1) (Examples.toy 2)
  /\ main_loop (Examples.toy 1) 2 Examples.initialized
     = main_loop (Examples.toy 2) 2 Examples.initialized.
Proof.
  assert (agree_up_to_returned (Examples.toy 1) (Examples.toy 2)) as Hagree.
  { split; [reflexivity|]. simpl. intros b m. split; reflexivity. }
  split; [exact Hagree|].
  apply (learn_return_value_ignored (Examples.toy 1) (Examples.toy 2) Hagree).
Defined.

(** C8, as stated, fails: were the value returned by [learn] passed on by
    the core, it could be read off what one iteration leaves behind; but the
    iteration ends in the same outcome and the same world whether [learn]
    returns 1 or 2. *)
Lemma learn_return_value_not_available :
  ~ exists observe : outcome unit * World nat (list nat) (list string) string -> nat,
      forall r : nat,
        observe (main_loop (Examples.toy r) 1 Examples.initialized) = r.
Proof.
  intros [observe H].
  pose proof (H 1%nat) as H1. pose proof (H 2%nat) as H2.
  replace (main_loop (Examples.toy 2) 1 Examples.initialized)
    with (main_loop (Examples.toy 1) 1 Examples.initialized) in H2
    by (vm_compute; reflexivity).
  rewrite H1 in H2. discriminate H2.
Qed.

(** C2 on one iteration: the dequeue takes 5 time units, [learn] 2 and the
    publish 1; the full cycle lasts 8, the fetch timer records 5, the learn
    timer 2, and the iteration timer records 3, the time of [learn] and
    publish alone. *)
Theorem iter_timer_excludes_dequeue :
  main_loop (Examples.toy 0) 1 Examples.initialized = (Normal tt, Examples.after_one)
  /\ clock Examples.after_one - clock Examples.initialized = 8
  /\ timers Examples.after_one !! fetch_timer (self Examples.after_one)
       = Some (Recorder 1 5)
  /\ timers Examples.after_one !! learn_timer (self Examples.after_one)
       = Some (Recorder 1 2)
  /\ timers Examples.after_one !! iter_timer (self Examples.after_one)
       = Some (Recorder 1 3).
Proof. vm_compute. repeat split; reflexivity. Qed.

(** * Further properties *)

(** ** The registry under sequences of class statements *)
Section StatementFacts.

Import Registry Statements.

Lemma exec_registry (s : stmt) (st : state) :
  learner_registry (exec s st) =
    if registers s
    then <[stmt_name s := (class_stmt (stmt_meta s) (stmt_name s)
                             (stmt_bases s) st).1]> (learner_registry st)
    else learner_registry st.
Proof.
  unfold exec, registers, class_stmt.
  destruct (winner (stmt_meta s) (stmt_bases s)); reflexivity.
Qed.

Lemma exec_all_snoc (l : list stmt) (s : stmt) (st : state) :
  exec_all (l ++ [s]) st = exec s (exec_all l st).
Proof. unfold exec_all. rewrite fold_left_app. reflexivity. Qed.

Lemma exec_all_app (l1 l2 : list stmt) (st : state) :
  exec_all (l1 ++ l2) st = exec_all l2 (exec_all l1 st).
Proof. unfold exec_all. apply fold_left_app. Qed.

Lemma exec_all_lookup_others (l : list stmt) (st : state) (name : string) :
  (forall s, s ∈ l -> registers s = true -> stmt_name s <> name) ->
  learner_registry (exec_all l st) !! name = learner_registry st !! name.
Proof.
  intros H.
  induction l as [|s l IH] using rev_ind; [reflexivity|].
  rewrite exec_all_snoc, exec_registry.
  destruct (registers s) eqn:Hs.
  - rewrite lookup_insert_ne.
    + apply IH. intros s' Hin. apply H. apply elem_of_app. auto.
    + apply H; [|exact Hs]. apply elem_of_app. right.
      apply list_elem_of_here.
  - apply IH. intros s' Hin. apply H. apply elem_of_app. auto.
Qed.

(** Class statements that do not go through [LearnerMeta], and those that
    define other names, leave the entry of a name alone: [learnerFactory]
    answers for that name as it did before them. *)
Theorem registry_untouched_by_others (l : list stmt) (st : state) (name : string) :
  (forall s, s ∈ l -> registers s = true -> stmt_name s <> name) ->
  learner_registry (exec_all l st) !! name = learner_registry st !! name
  /\ learnerFactory name (exec_all l st) = learnerFactory name st.
Proof.
  intros H. pose proof (exec_all_lookup_others l st name H) as Hreg.
  split; [exact Hreg|]. unfold learnerFactory. rewrite Hreg. reflexivity.
Qed.

(** Among the class statements of a program, the last one that goes through
    [LearnerMeta] under a given name is the class [learnerFactory] returns
    for that name. *)
Theorem registry_last_definition_wins (pre post : list stmt) (s : stmt)
    (st : state) :
  registers s = true ->
  (forall s', s' ∈ post -> registers s' = true -> stmt_name s' <> stmt_name s) ->
  learnerFactory (stmt_name s) (exec_all (pre ++ s :: post) st)
    = Normal (class_stmt (stmt_meta s) (stmt_name s) (stmt_bases s)
                (exec_all pre st)).1.
Proof.
  intros Hs Hpost.
  change (pre ++ s :: post) with (pre ++ [s] ++ post).
  rewrite app_assoc, exec_all_app. unfold learnerFactory.
  rewrite (exec_all_lookup_others post (exec_all (pre ++ [s]) st)
             (stmt_name s) Hpost).
  rewrite exec_all_snoc, exec_registry, Hs, lookup_insert_eq. reflexivity.
Qed.

(** Once the module is loaded, [learnerFactory] knows [LearnerCore] and
    [Learner] and nothing else: any other name raises [KeyError] with that
    name. *)
Theorem factory_unknown_name (name : string) :
  name <> "LearnerCore"%string -> name <> "Learner"%string ->
  learnerFactory name load_module.2 = Raise (KeyError name)
  /\ dom (learner_registry load_module.2)
     = ({["LearnerCore"%string; "Learner"%string]} : gset string).
Proof.
  intros H1 H2.
  assert (learner_registry load_module.2
          = <["Learner"%string := load_module.1.2]>
              (<["LearnerCore"%string := load_module.1.1]> ∅)) as Hreg
    by reflexivity.
  split.
  - unfold learnerFactory. rewrite Hreg.
    rewrite lookup_insert_ne by congruence.
    rewrite lookup_insert_ne by congruence.
    rewrite lookup_empty. reflexivity.
  - rewrite Hreg, !dom_insert_L, dom_empty_L. set_solver.
Qed.

End StatementFacts.

(** ** Waiting, backpressure and what the queue's operations leave alone *)
Section QueueMore.

Context {Batch Model ModuleDict Payload : Type}.
Implicit Types (w : World Batch Model ModuleDict Payload) (item : Batch).

Lemma enqueue_outcomes item w :
  (0 < capacity w /\ capacity w <= __len__ w /\ _enqueue item w = (Blocked, w))
  \/ (~ (0 < capacity w /\ capacity w <= __len__ w)
      /\ exists w', _enqueue item w = (Normal tt, w')
           /\ queue_items w' = queue_items w ++ [item]
           /\ w' = set_events (events w ++ [EvPut item])
                     (set_prefetch_queue
                        (with_queue (PyQueue.Build (capacity w)
                                       (queue_items w ++ [item]))) w)).
Proof.
  unfold capacity, __len__, queue_items.
  destruct (PyQueue.put item (_queue (prefetch_queue w))) as [q|] eqn:Hput.
  - right. rewrite (enqueue_ready _ _ _ Hput).
    unfold PyQueue.put in Hput.
    destruct (PyQueue.full (_queue (prefetch_queue w))) eqn:Hfull; [discriminate|].
    injection Hput as <-. split.
    + unfold PyQueue.full, PyQueue.qsize in *.
      apply andb_false_iff in Hfull. destruct Hfull; lia.
    + eexists. split; [reflexivity|]. split; reflexivity.
  - left. rewrite (enqueue_waits _ _ Hput).
    unfold PyQueue.put in Hput.
    destruct (PyQueue.full (_queue (prefetch_queue w))) eqn:Hfull; [|discriminate].
    unfold PyQueue.full, PyQueue.qsize in *.
    apply andb_true_iff in Hfull. destruct Hfull. repeat split; lia.
Qed.

Lemma dequeue_outcomes w :
  (queue_items w ++ feed w = [] /\ dequeue w = (Blocked, w))
  \/ (exists b w', dequeue w = (Normal b, w')
        /\ queue_items w ++ feed w = b :: queue_items w' ++ feed w').
Proof.
  destruct (queue_items w) as [|item rest] eqn:Hq.
  - destruct (feed w) as [|item rest] eqn:Hf.
    + left. split; [reflexivity | apply dequeue_waits; assumption].
    + right. destruct (dequeue_from_feed _ _ _ Hq Hf) as (w' & Hd & Hq' & _ & Hf' & _).
      exists item, w'. rewrite Hq', Hf'. auto.
  - right. destruct (dequeue_nonempty _ _ _ Hq) as (w' & Hd & Hq' & _ & Hf' & _).
    exists item, w'. rewrite Hq', Hf'. auto.
Qed.

(** A full or empty queue is never an error, and a call that has to wait
    has done nothing yet: [_enqueue] and [dequeue] never raise, and when
    they block the world is exactly as before the call. *)
Theorem waiting_call_changes_nothing item w :
  (forall e w', _enqueue item w <> (Raise e, w'))
  /\ (forall e w', dequeue w <> (Raise e, w'))
  /\ (forall w', _enqueue item w = (Blocked, w') -> w' = w)
  /\ (forall w', dequeue w = (Blocked, w') -> w' = w).
Proof.
  destruct (enqueue_outcomes item w) as [(_ & _ & He) | (_ & w1 & He & _)];
    destruct (dequeue_outcomes w) as [(_ & Hd) | (b & w2 & Hd & _)];
    rewrite He, Hd; repeat split; intros; congruence.
Qed.


(** Backpressure is released by one dequeue: when [_enqueue] waits on a
    queue that holds no more than its capacity, the consumer's next
    [dequeue] returns the oldest item and the same [_enqueue] then goes
    through, the new item last and the queue full again. *)
Theorem dequeue_releases_producer item w :
  _enqueue item w = (Blocked, w) ->
  __len__ w <= capacity w ->
  exists oldest w1 w2,
    dequeue w = (Normal oldest, w1)
    /\ queue_items w = oldest :: queue_items w1
    /\ _enqueue item w1 = (Normal tt, w2)
    /\ queue_items w2 = queue_items w1 ++ [item]
    /\ __len__ w2 = capacity w.
Proof.
  intros Hb Hle.
  assert (0 < capacity w /\ capacity w <= __len__ w) as [Hpos Hfull].
  { destruct (enqueue_outcomes item w) as [(H1 & H2 & _) | (_ & w' & He & _)];
      [auto | rewrite He in Hb; discriminate]. }
  destruct (queue_items w) as [|oldest rest] eqn:Hq.
  { unfold __len__, PyQueue.qsize, queue_items in *. rewrite Hq in Hfull.
    simpl in Hfull. lia. }
  destruct (dequeue_nonempty _ _ _ Hq) as (w1 & Hd & Hq1 & Hc1 & _).
  assert (__len__ w = 1 + __len__ w1) as Hlen.
  { unfold __len__, PyQueue.qsize, queue_items in *. rewrite Hq, Hq1.
    simpl length. lia. }
  destruct (enqueue_outcomes item w1) as [(_ & Hfull1 & _) | (_ & w2 & He & Hq2 & _)].
  { lia. }
  exists oldest, w1, w2.
  split; [exact Hd|]. split; [rewrite Hq1; reflexivity|].
  split; [exact He|]. split; [exact Hq2|].
  unfold __len__, PyQueue.qsize, queue_items in *.
  rewrite Hq2, length_app. simpl length. lia.
Qed.

(** Constructed with [max_size <= 0] the queue is unbounded: a producer
    that enqueues any list of items never waits, and all of them are in the
    queue, in order, behind those already there. *)
Theorem enqueue_never_blocks_unbounded (items : list Batch) w :
  capacity w <= 0 ->
  queue_items (run (Enqueue <$> items) w) = queue_items w ++ items
  /\ __len__ (run (Enqueue <$> items) w) = __len__ w + Z.of_nat (length items).
Proof.
  intros Hcap.
  assert (queue_items (run (Enqueue <$> items) w) = queue_items w ++ items) as Hq.
  { induction items as [|item items IH] using rev_ind.
    - simpl. rewrite app_nil_r. reflexivity.
    - rewrite fmap_app. simpl. rewrite run_snoc. simpl.
      destruct (enqueue_outcomes item (run (Enqueue <$> items) w))
        as [(Hpos & _) | (_ & w' & -> & Hq' & _)].
      + rewrite run_capacity in Hpos. lia.
      + simpl. rewrite Hq', IH, app_assoc. reflexivity. }
  split; [exact Hq|].
  unfold __len__, PyQueue.qsize. fold (queue_items (run (Enqueue <$> items) w)).
  fold (queue_items w). rewrite Hq, length_app. lia.
Qed.

End QueueMore.

(** ** What the queue's turns and the main loop never rebind *)
Section Wiring.

Import Runs.

Context {Batch Model RetVal ModuleDict Payload : Type}.
Variable impl : Impl Batch Model RetVal ModuleDict Payload.
Implicit Types (w : World Batch Model ModuleDict Payload) (b : Batch).

Lemma same_wiring_refl w : same_wiring w w.
Proof. unfold same_wiring. repeat split; reflexivity. Qed.

Lemma same_wiring_trans w1 w2 w3 :
  same_wiring w1 w2 -> same_wiring w2 w3 -> same_wiring w1 w3.
Proof.
  unfold same_wiring.
  intros (A1 & A2 & A3 & A4 & A5 & A6 & A7 & A8)
         (B1 & B2 & B3 & B4 & B5 & B6 & B7 & B8).
  repeat split; congruence.
Qed.

Lemma bind_wiring {A B : Type} (c : M Batch Model ModuleDict Payload A)
    (k : A -> M Batch Model ModuleDict Payload B) :
  (forall w, same_wiring w (c w).2) ->
  (forall a w, same_wiring w (k a w).2) ->
  forall w, same_wiring w (bind c k w).2.
Proof.
  intros Hc Hk w. unfold bind. specialize (Hc w).
  destruct (c w) as [[a|e|] w1]; simpl in *; try exact Hc.
  eapply same_wiring_trans; [exact Hc | apply Hk].
Qed.

Lemma time_wiring {A : Type} (r : loc) (c : M Batch Model ModuleDict Payload A) :
  (forall w, same_wiring w (c w).2) ->
  forall w, same_wiring w (time r c w).2.
Proof.
  intros Hc. unfold time.
  apply bind_wiring; [intros w; apply same_wiring_refl|]. intros pre.
  apply bind_wiring; [exact Hc|]. intros x.
  apply bind_wiring; [intros w; apply same_wiring_refl|]. intros post.
  apply bind_wiring; [|intros [] w; apply same_wiring_refl].
  intros w. unfold same_wiring, capacity. simpl.
  rewrite length_alter. repeat split; reflexivity.
Qed.

Lemma Queue_get_wiring w : same_wiring w (Queue_get (Batch:=Batch) w).2.
Proof.
  destruct w as [s [[m its] bs c t r] ts md ck el fd ev pb wr].
  unfold Queue_get, PyQueue.get, same_wiring, capacity; simpl.
  destruct its as [|item rest]; simpl.
  - destruct fd as [|item rest]; simpl; [repeat split; reflexivity|].
    unfold bind, spend, modify, Queue_put, gets, log, ret; simpl.
    rewrite put_on_empty. simpl. repeat split; reflexivity.
  - repeat split; reflexivity.
Qed.

Lemma dequeue_wiring w : same_wiring w (dequeue (Batch:=Batch) w).2.
Proof.
  revert w. unfold dequeue.
  apply bind_wiring; [intros w; apply same_wiring_refl|]. intros r.
  apply time_wiring. exact Queue_get_wiring.
Qed.

Lemma enqueue_wiring b w : same_wiring w (_enqueue b w).2.
Proof.
  destruct (enqueue_outcomes b w) as [(_ & _ & ->) | (_ & w' & -> & _ & ->)];
    simpl; [apply same_wiring_refl|].
  unfold same_wiring, capacity. simpl. repeat split; reflexivity.
Qed.

Lemma learn_wiring b w : same_wiring w (learn impl b w).2.
Proof.
  cbv beta delta [learn bind log spend modify raise]. simpl.
  destruct (learn_override impl) as [f|]; simpl.
  - destruct (f b (model w)) as [[r|e|] m']; simpl;
      unfold same_wiring, capacity; simpl; repeat split; reflexivity.
  - unfold same_wiring, capacity; simpl; repeat split; reflexivity.
Qed.

Lemma publish_parameter_wiring (i : nat) (message : string) w :
  same_wiring w (publish_parameter impl i message w).2.
Proof.
  cbv beta delta [publish_parameter publish bind gets log spend modify raise].
  simpl. destruct (_ps_publisher (self w)) as [p|]; simpl;
    [|apply same_wiring_refl].
  destruct (dumps impl (publisher_module_dict p) (model w)); simpl;
    unfold same_wiring, capacity; simpl; repeat split; reflexivity.
Qed.

Lemma loop_body_wiring (i : nat) b w : same_wiring w (loop_body impl i b w).2.
Proof.
  revert w. unfold loop_body.
  apply bind_wiring; [intros w; apply same_wiring_refl|]. intros it.
  apply bind_wiring; [intros w; apply same_wiring_refl|]. intros lt.
  apply time_wiring.
  apply bind_wiring; [apply time_wiring; intros w; apply learn_wiring|].
  intros _ w. apply publish_parameter_wiring.
Qed.

Lemma main_loop_from_wiring (n i : nat) w :
  same_wiring w (main_loop_from impl n i w).2.
Proof.
  revert i w. induction n as [|n IH]; intros i; simpl.
  - intros w. apply same_wiring_refl.
  - apply bind_wiring; [exact dequeue_wiring|]. intros b.
    apply bind_wiring; [intros w; apply loop_body_wiring|]. intros _.
    apply IH.
Qed.

(** Whatever the interleaving of enqueue and dequeue turns, the queue keeps
    the capacity, client, thread handle and timer it was constructed with,
    and the turns touch neither the learner's attributes, nor the model, nor
    the publish channel. *)
Theorem queue_turns_keep_wiring (schedule : list (@op Batch)) w :
  same_wiring w (run schedule w)
  /\ model (run schedule w) = model w
  /\ wire (run schedule w) = wire w.
Proof.
  induction schedule as [|o schedule IH] using rev_ind.
  - split; [apply same_wiring_refl | split; reflexivity].
  - rewrite run_snoc. destruct IH as (Hw & Hm & Hwire).
    set (w1 := run schedule w) in *.
    destruct o as [item|]; simpl.
    + split; [eapply same_wiring_trans; [exact Hw | apply enqueue_wiring]|].
      destruct (enqueue_outcomes item w1) as [(_ & _ & ->) | (_ & w' & -> & _ & ->)];
        simpl; auto.
    + split; [eapply same_wiring_trans; [exact Hw | apply dequeue_wiring]|].
      destruct (dequeue_outcomes w1) as [(_ & ->) | (b & w' & Hd & _)];
        simpl; [auto|].
      rewrite Hd. simpl.
      apply dequeue_normal in Hd as (w0 & Hg & ->).
      apply Queue_get_normal in Hg
        as (_ & _ & _ & _ & _ & Hm' & Hw' & _).
      simpl. rewrite Hm', Hw'. auto.
Qed.

(** However the main loop ends (after [n] iterations, on an exception, or
    waiting for a batch), it has rebound nothing: the learner still has the
    publisher, port and timer references it had, the queue its client,
    thread handle and capacity, and no publisher has been built. *)
Theorem main_loop_keeps_wiring (n : nat) w :
  same_wiring w (main_loop impl n w).2.
Proof. apply main_loop_from_wiring. Qed.

End Wiring.

(** ** Initialization: when it succeeds, how it fails, and repeated calls *)
Section InitializeMore.

Import Runs.

Context {Batch Model RetVal ModuleDict Payload : Type}.
Variable impl : Impl Batch Model RetVal ModuleDict Payload.
Implicit Types (w : World Batch Model ModuleDict Payload).

Lemma module_dict_result_normal (m : Model) (md : ModuleDict) :
  module_dict_result impl m = Normal md <->
  exists g, module_dict_override impl = Some g /\ g m = Normal md.
Proof.
  unfold module_dict_result. destruct (module_dict_override impl) as [g|].
  - split; [eauto | intros (g' & Hg & Hm); congruence].
  - split; [discriminate | intros (g' & Hg & _); discriminate].
Qed.

Lemma _initialize_first w (md : ModuleDict) :
  module_dict_result impl (model w) = Normal md ->
  _enqueue_thread (prefetch_queue w) = None ->
  exists w1, _initialize impl w = (Normal tt, w1).
Proof.
  intros Hmd Ht. apply module_dict_result_normal in Hmd as (g & Ho & Hg).
  cbv beta delta [_initialize module_dict ParameterPublisher_new
    start_enqueue_thread client_start bind gets log modify raise ret].
  simpl. rewrite Ho. simpl. rewrite Hg. simpl. rewrite Ht. simpl.
  eexists. reflexivity.
Qed.

(** [_initialize] returns exactly when [module_dict()] returns a mapping and
    the enqueue thread has not been started yet. *)
Theorem initialize_succeeds_iff w :
  (exists w1, _initialize impl w = (Normal tt, w1))
  <-> (exists md, module_dict_result impl (model w) = Normal md)
      /\ _enqueue_thread (prefetch_queue w) = None.
Proof.
  split.
  - intros (w1 & H).
    apply _initialize_normal in H as (g & md & Ho & Hg & Ht & _).
    split; [|exact Ht]. exists md. apply module_dict_result_normal. eauto.
  - intros ((md & Hmd) & Ht). eapply _initialize_first; eassumption.
Qed.

(** When [module_dict()] raises (as the body of [LearnerCore] does when the
    method is not overridden), [_initialize] raises the same exception
    having bound no publisher and started nothing: apart from the log, the
    world is as before. *)
Theorem initialize_propagates_module_dict_error w (e : exn) :
  module_dict_result impl (model w) = Raise e ->
  _initialize impl w = (Raise e, set_events (events w ++ [EvModuleDict]) w)
  /\ (module_dict_override impl = None -> e = NotImplementedError).
Proof.
  unfold module_dict_result. intros H. split.
  - cbv beta delta [_initialize module_dict bind gets log modify raise].
    simpl. destruct (module_dict_override impl) as [g|]; simpl.
    + rewrite H. reflexivity.
    + injection H as <-. reflexivity.
  - intros Ho. rewrite Ho in H. congruence.
Qed.

Lemma initialize_attempts_S (k : nat) w :
  initialize_attempts impl (S k) w
  = (_initialize impl (initialize_attempts impl k w)).2.
Proof. reflexivity. Qed.

(** However many times initialization is attempted on a learner whose
    [module_dict()] works, the fetch client is started exactly once, by the
    first attempt, while every attempt builds one more publisher and leaves
    the latest one installed. *)
Theorem initialize_attempts_start_once (k : nat) w (md : ModuleDict) :
  module_dict_result impl (model w) = Normal md ->
  _enqueue_thread (prefetch_queue w) = None ->
  let w' := initialize_attempts impl (S k) w in
  starts (_client (prefetch_queue w')) = S (starts (_client (prefetch_queue w)))
  /\ client_starts (events w') = S (client_starts (events w))
  /\ publishers w' = (publishers w + S k)%nat
  /\ _ps_publisher (self w')
     = Some (Publisher (publishers w + k)%nat (_ps_port (self w)) md)
  /\ _enqueue_thread (prefetch_queue w') = Some the_client.
Proof.
  intros Hmd Ht. cbv zeta.
  assert (model (initialize_attempts impl (S k) w) = model w
          /\ _ps_port (self (initialize_attempts impl (S k) w)) = _ps_port (self w)
          /\ starts (_client (prefetch_queue (initialize_attempts impl (S k) w)))
             = S (starts (_client (prefetch_queue w)))
          /\ client_starts (events (initialize_attempts impl (S k) w))
             = S (client_starts (events w))
          /\ publishers (initialize_attempts impl (S k) w) = (publishers w + S k)%nat
          /\ _ps_publisher (self (initialize_attempts impl (S k) w))
             = Some (Publisher (publishers w + k)%nat (_ps_port (self w)) md)
          /\ _enqueue_thread (prefetch_queue (initialize_attempts impl (S k) w))
             = Some the_client) as H.
  { induction k as [|k IH].
    - destruct (_initialize_first w md Hmd Ht) as (w1 & Hrun).
      change (initialize_attempts impl 1 w) with (_initialize impl w).2.
      rewrite Hrun. simpl.
      apply _initialize_normal in Hrun
        as (g & md' & Ho & Hg & _ & Ht1 & Hm & Hport & Hp & Hn & Hs & He).
      assert (md' = md) as ->.
      { apply module_dict_result_normal in Hmd as (g' & Ho' & Hg'). congruence. }
      rewrite He, client_starts_app, Hp, Hn, Hs, !Nat.add_0_r.
      unfold client_starts at 2. simpl.
      repeat split; auto; lia.
    - destruct IH as (Hm & Hport & Hs & Hc & Hn & Hp & Hth).
      rewrite initialize_attempts_S.
      set (wk := initialize_attempts impl (S k) w) in *.
      apply module_dict_result_normal in Hmd as (g & Ho & Hg).
      rewrite <- Hm in Hg.
      destruct (_initialize_again impl wk g md the_client Ho Hg Hth)
        as (w2 & Hrun & Hq & Hp2 & He).
      rewrite Hrun. simpl.
      assert (model w2 = model wk /\ _ps_port (self w2) = _ps_port (self wk)
              /\ publishers w2 = S (publishers wk)) as (Hm2 & Hport2 & Hn2).
      { revert Hrun.
        cbv beta delta [_initialize module_dict ParameterPublisher_new
          start_enqueue_thread client_start bind gets log modify raise ret].
        simpl. rewrite Ho. simpl. rewrite Hg. simpl. rewrite Hth. simpl.
        intros Hrun. injection Hrun as <-. simpl. auto. }
      rewrite Hm2, Hport2, Hq, He, client_starts_app, Hp2, Hn2, Hn, Hport.
      unfold client_starts at 2. simpl.
      repeat split; auto; lia. }
  destruct H as (_ & _ & Hs & Hc & Hn & Hp & Hth). auto.
Qed.

End InitializeMore.

(** ** The main loop: what it consumes, how it composes, how it stops *)
Section MainLoopMore.

Import Runs.

Context {Batch Model RetVal ModuleDict Payload : Type}.
Variable impl : Impl Batch Model RetVal ModuleDict Payload.
Implicit Types (w : World Batch Model ModuleDict Payload) (b : Batch).

Lemma learned_app (l1 l2 : list (event Batch)) :
  learned (l1 ++ l2) = learned l1 ++ learned l2.
Proof. apply flat_map_app. Qed.

Lemma fetch_batch_consumes w b w1 :
  fetch_batch w = (Normal b, w1) ->
  supply w = b :: supply w1
  /\ model w1 = model w /\ self w1 = self w /\ wire w1 = wire w
  /\ learned (events w1) = learned (events w)
  /\ publish_calls (events w1) = publish_calls (events w).
Proof.
  intros H. pose proof (fetch_batch_events _ _ _ H) as He.
  unfold fetch_batch in H. apply dequeue_normal in H as (w0 & Hg & ->).
  apply Queue_get_normal in Hg
    as (_ & _ & _ & Hs & _ & Hm & Hw & _ & _ & _ & _ & Hsupply).
  unfold supply. simpl in *.
  split; [exact Hsupply|]. split; [exact Hm|]. split; [exact Hs|].
  split; [exact Hw|].
  destruct He as [-> | ->];
    rewrite learned_app, publish_calls_app; simpl; rewrite !app_nil_r; auto.
Qed.


Lemma loop_body_learns (i : nat) b w w' :
  loop_body impl i b w = (Normal tt, w') ->
  supply w' = supply w
  /\ model w' = (learn_result impl b (model w)).2
  /\ learned (events w') = learned (events w) ++ [b].
Proof.
  intros H. pose proof (loop_body_events impl _ _ _ _ H) as He.
  apply loop_body_normal in H as (w1 & w2 & r & Hl & Hp & ->).
  apply learn_normal in Hl as (f & m' & Ho & Hf & ->).
  apply publish_parameter_normal in Hp as (p & payload & _ & _ & ->).
  simpl in *. split; [reflexivity|]. split.
  - unfold learn_result. rewrite Ho, Hf. reflexivity.
  - rewrite He, learned_app. reflexivity.
Qed.

Lemma main_loop_from_consumes (n i : nat) w w' :
  main_loop_from impl n i w = (Normal tt, w') ->
  (n <= length (supply w))%nat
  /\ supply w' = drop n (supply w)
  /\ learned (events w') = learned (events w) ++ take n (supply w)
  /\ model w' = learn_all impl (take n (supply w)) (model w).
Proof.
  revert i w. induction n as [|n IH]; intros i w H.
  - injection H as <-. simpl. rewrite app_nil_r. repeat split; auto. lia.
  - simpl in H.
    apply bind_normal in H as (b & w1 & Hf & H).
    apply bind_normal in H as ([] & w2 & Hb & H).
    apply fetch_batch_consumes in Hf as (Hs1 & Hm1 & _ & _ & Hl1 & _).
    apply loop_body_learns in Hb as (Hs2 & Hm2 & Hl2).
    apply IH in H as (Hn & Hs & Hl & Hm).
    rewrite Hs1. simpl. rewrite <- Hs2.
    split; [lia|]. split; [exact Hs|]. split.
    + rewrite Hl, Hl2, Hl1, <- app_assoc. reflexivity.
    + rewrite Hm, Hm2, Hm1. reflexivity.
Qed.

(** The batches of [n] completed iterations are the first [n] of the
    supply, each handed to [learn] once and in arrival order; the rest of
    the supply is still to come. *)
Theorem main_loop_consumes_in_order (n : nat) w w' :
  main_loop impl n w = (Normal tt, w') ->
  learned (events w') = learned (events w) ++ take n (supply w)
  /\ supply w' = drop n (supply w)
  /\ (n <= length (supply w))%nat.
Proof.
  intros H. apply main_loop_from_consumes in H as (Hn & Hs & Hl & _). auto.
Qed.

(** After [n] completed iterations the model is the one obtained by
    learning from the first [n] batches of the supply in turn. *)
Theorem main_loop_model (n : nat) w w' :
  main_loop impl n w = (Normal tt, w') ->
  model w' = learn_all impl (take n (supply w)) (model w).
Proof.
  intros H. apply main_loop_from_consumes in H as (_ & _ & _ & Hm). exact Hm.
Qed.

Lemma main_loop_from_split (a b i : nat) w :
  main_loop_from impl (a + b) i w
  = bind (main_loop_from impl a i)
         (fun _ => main_loop_from impl b (i + a)%nat) w.
Proof.
  revert i w. induction a as [|a IH]; intros i w.
  - simpl. unfold bind, ret. rewrite Nat.add_0_r. reflexivity.
  - simpl. unfold bind.
    destruct (fetch_batch w) as [[batch|e|] w1]; try reflexivity.
    destruct (loop_body impl i batch w1) as [[[]|e|] w2]; try reflexivity.
    specialize (IH (S i) w2). unfold bind in IH. rewrite IH.
    replace (S i + a)%nat with (i + S a)%nat by lia. reflexivity.
Qed.


End MainLoopMore.

(** ** The ways the main loop stops *)
Section LoopStops.

Import Runs.

Context {Batch Model RetVal ModuleDict Payload : Type}.
Variable impl : Impl Batch Model RetVal ModuleDict Payload.
Implicit Types (w : World Batch Model ModuleDict Payload) (b : Batch).






(** When the supply dries up the loop waits for ever: with [k] batches to
    come, a working learner and an initialized publisher, asking for more
    than [k] iterations completes exactly [k] of them, publishes [k] times
    and then blocks in the dequeue with nothing left. *)
Theorem main_loop_starves (n : nat) w (p : ParameterPublisher ModuleDict)
    (f : Batch -> Model -> outcome RetVal * Model) :
  _ps_publisher (self w) = Some p ->
  learn_override impl = Some f ->
  (forall b m, exists r m', f b m = (Normal r, m')) ->
  (forall m, is_Some (dumps impl (publisher_module_dict p) m)) ->
  (length (supply w) < n)%nat ->
  exists w',
    main_loop impl n w = (Blocked, w')
    /\ supply w' = []
    /\ learned (events w') = learned (events w) ++ supply w
    /\ length (publish_calls (events w'))
       = (length (publish_calls (events w)) + length (supply w))%nat.
Proof.
  intros Hp Ho Hf Hd Hlt.
  set (k := length (supply w)) in *.
  destruct (main_loop_from_runs impl k 0 w p f Hp Ho Hf Hd) as (w1 & Hrun).
  { change (k <= length (supply w))%nat. lia. }
  pose proof (main_loop_from_consumes impl _ _ _ _ Hrun) as (_ & Hs & Hl & _).
  pose proof (main_loop_from_events impl _ _ _ _ Hrun)
    as (batches & new & _ & He & _ & Hpc).
  subst k. rewrite drop_all in Hs. rewrite firstn_all in Hl.
  exists w1. split.
  - unfold main_loop.
    replace n with (length (supply w) + S (n - S (length (supply w))))%nat by lia.
    rewrite main_loop_from_split. unfold bind at 1. rewrite Hrun.
    simpl. unfold bind, fetch_batch.
    rewrite dequeue_waits; [reflexivity | |].
    + unfold supply in Hs. destruct (queue_items w1); [reflexivity|discriminate].
    + unfold supply in Hs. destruct (queue_items w1); [exact Hs|discriminate].
  - split; [exact Hs|]. split; [exact Hl|].
    rewrite He, publish_calls_app, length_app, Hpc, length_fmap, length_seq.
    reflexivity.
Qed.

Lemma append_cancel_l (s x y : string) : (s +:+ x = s +:+ y)%string -> x = y.
Proof.
  induction s as [|c s IH]; simpl; intros H; [exact H|].
  injection H as H. apply IH, H.
Qed.

(** The message of an iteration identifies it: the messages of two
    different iterations differ. *)
Theorem publish_message_injective (i j : nat) :
  ("batch " +:+ str i = "batch " +:+ str j)%string -> i = j.
Proof.
  intros H. apply append_cancel_l in H. unfold str in H.
  apply (f_equal NilEmpty.uint_of_string) in H.
  rewrite !NilEmpty.usu in H. injection H as H.
  apply DecimalNat.Unsigned.to_uint_inj. exact H.
Qed.

End LoopStops.

(** ** What the three timers hold after a run *)
Section TimerFacts.

Import Runs.

Context {Batch Model RetVal ModuleDict Payload : Type}.
Variable impl : Impl Batch Model RetVal ModuleDict Payload.
Implicit Types (w : World Batch Model ModuleDict Payload) (b : Batch).

Lemma default_lookup_alter_eq (g : TimeRecorder -> TimeRecorder) (l : nat)
    (ts : list TimeRecorder) :
  (l < length ts)%nat ->
  default new_TimeRecorder (alter g l ts !! l)
  = g (default new_TimeRecorder (ts !! l)).
Proof.
  intros Hl. rewrite list_lookup_alter_eq.
  destruct (lookup_lt_is_Some_2 ts l Hl) as [r ->]. reflexivity.
Qed.

Lemma default_lookup_alter_ne (g : TimeRecorder -> TimeRecorder) (l l' : nat)
    (ts : list TimeRecorder) :
  l' <> l ->
  default new_TimeRecorder (alter g l' ts !! l)
  = default new_TimeRecorder (ts !! l).
Proof. intros Hne. rewrite list_lookup_alter_ne by exact Hne. reflexivity. Qed.

Lemma loop_body_elapse (i : nat) b w w' :
  loop_body impl i b w = (Normal tt, w') ->
  elapse w' = tl (tl (elapse w)).
Proof.
  intros H. apply loop_body_normal in H as (w1 & w2 & r & Hl & Hp & ->).
  apply learn_normal in Hl as (f & m' & _ & _ & ->).
  apply publish_parameter_normal in Hp as (p & payload & _ & _ & ->).
  reflexivity.
Qed.

Lemma hd_nonneg (l : list Z) : Forall (fun d => 0 <= d) l -> 0 <= hd 0 l.
Proof. intros H. destruct H; simpl; lia. Qed.

Lemma tl_nonneg (l : list Z) :
  Forall (fun d => 0 <= d) l -> Forall (fun d => 0 <= d) (tl l).
Proof. intros H. destruct H; simpl; [constructor | assumption]. Qed.

(** One complete iteration, seen from the three timers. *)
Lemma iteration_timers_at (i : nat) w b w1 w2 :
  timers_bound w ->
  fetch_batch w = (Normal b, w1) ->
  loop_body impl i b w1 = (Normal tt, w2) ->
  timers_bound w2
  /\ self w2 = self w
  /\ elapse w2 = tl (tl (tl (elapse w)))
  /\ clock w2 = clock w + hd 0 (elapse w) + hd 0 (tl (elapse w))
                + hd 0 (tl (tl (elapse w)))
  /\ timer_at (fetch_timer (self w)) w2
     = add_value (hd 0 (elapse w)) (timer_at (fetch_timer (self w)) w)
  /\ timer_at (learn_timer (self w)) w2
     = add_value (hd 0 (tl (elapse w))) (timer_at (learn_timer (self w)) w)
  /\ timer_at (iter_timer (self w)) w2
     = add_value (hd 0 (tl (elapse w)) + hd 0 (tl (tl (elapse w))))
                 (timer_at (iter_timer (self w)) w).
Proof.
  intros (Ha & Hfl & Hfi & Hli & HF & HL & HI) Hf Hb.
  pose proof (loop_body_elapse _ _ _ _ Hb) as He2.
  apply fetch_batch_timing in Hf as (Hc1 & He1 & Ht1 & Hs1 & Hq1).
  apply loop_body_timing in Hb as (Hc2 & Ht2 & Hs2 & Hq2).
  rewrite Hs1 in *. rewrite He1 in *. rewrite <- Ha in Ht1.
  assert (length (timers w2) = length (timers w)) as Hlen.
  { rewrite Ht2, !length_alter, Ht1, length_alter. reflexivity. }
  unfold timers_bound, timer_at. rewrite Hs2, Hq2, Hq1, Hlen.
  split; [repeat split; assumption|]. split; [reflexivity|].
  split; [exact He2|]. split; [lia|].
  rewrite Ht2, Ht1. unfold loc in *.
  split; [|split].
  - rewrite default_lookup_alter_ne by congruence.
    rewrite default_lookup_alter_ne by congruence.
    rewrite default_lookup_alter_eq by exact HF.
    f_equal. lia.
  - rewrite default_lookup_alter_ne by congruence.
    rewrite default_lookup_alter_eq by (rewrite length_alter; exact HL).
    rewrite default_lookup_alter_ne by congruence. reflexivity.
  - rewrite default_lookup_alter_eq by (rewrite !length_alter; exact HI).
    rewrite default_lookup_alter_ne by congruence.
    rewrite default_lookup_alter_ne by congruence.
    f_equal. lia.
Qed.

Lemma main_loop_from_timers (n i : nat) w w' :
  timers_bound w ->
  main_loop_from impl n i w = (Normal tt, w') ->
  timers_bound w' /\ self w' = self w
  /\ tr_count (timer_at (fetch_timer (self w)) w')
     = (tr_count (timer_at (fetch_timer (self w)) w) + n)%nat
  /\ tr_count (timer_at (learn_timer (self w)) w')
     = (tr_count (timer_at (learn_timer (self w)) w) + n)%nat
  /\ tr_count (timer_at (iter_timer (self w)) w')
     = (tr_count (timer_at (iter_timer (self w)) w) + n)%nat
  /\ (tr_total (timer_at (fetch_timer (self w)) w')
      - tr_total (timer_at (fetch_timer (self w)) w))
     + (tr_total (timer_at (iter_timer (self w)) w')
        - tr_total (timer_at (iter_timer (self w)) w))
     = clock w' - clock w
  /\ (Forall (fun d => 0 <= d) (elapse w) ->
      Forall (fun d => 0 <= d) (elapse w')
      /\ 0 <= tr_total (timer_at (learn_timer (self w)) w')
              - tr_total (timer_at (learn_timer (self w)) w)
           <= tr_total (timer_at (iter_timer (self w)) w')
              - tr_total (timer_at (iter_timer (self w)) w)).
Proof.
  revert i w. induction n as [|n IH]; intros i w Hb H.
  - injection H as <-. split; [exact Hb|]. repeat split; auto; lia.
  - simpl in H.
    apply bind_normal in H as (b & w1 & Hf & H).
    apply bind_normal in H as ([] & w2 & Hbody & H).
    destruct (iteration_timers_at i w b w1 w2 Hb Hf Hbody)
      as (Hb2 & Hs2 & He2 & Hc2 & HtF & HtL & HtI).
    apply IH in H as (Hb' & Hs' & HcF & HcL & HcI & Hacc & Hnest); [|exact Hb2].
    rewrite Hs2 in *.
    split; [exact Hb'|]. split; [congruence|].
    rewrite HcF, HcL, HcI, HtF, HtL, HtI. simpl.
    split; [lia|]. split; [lia|]. split; [lia|].
    rewrite HtF, HtI in Hacc. simpl in Hacc.
    split; [lia|].
    intros Hpos.
    pose proof (hd_nonneg _ (tl_nonneg _ Hpos)) as H1.
    pose proof (hd_nonneg _ (tl_nonneg _ (tl_nonneg _ Hpos))) as H2.
    destruct Hnest as [Hpos' Hle].
    { rewrite He2. apply tl_nonneg, tl_nonneg, tl_nonneg, Hpos. }
    split; [exact Hpos'|].
    rewrite HtL, HtI in Hle. simpl in Hle. lia.
Qed.

(** After [n] completed iterations each of the three timers has received
    exactly [n] more samples. *)
Theorem timers_count_iterations (n : nat) w w' :
  timers_bound w ->
  main_loop impl n w = (Normal tt, w') ->
  tr_count (timer_at (fetch_timer (self w')) w')
  = (tr_count (timer_at (fetch_timer (self w)) w) + n)%nat
  /\ tr_count (timer_at (learn_timer (self w')) w')
     = (tr_count (timer_at (learn_timer (self w)) w) + n)%nat
  /\ tr_count (timer_at (iter_timer (self w')) w')
     = (tr_count (timer_at (iter_timer (self w)) w) + n)%nat.
Proof.
  intros Hb H.
  apply main_loop_from_timers in H as (_ & -> & HF & HL & HI & _); auto.
Qed.

(** Over [n] completed iterations the time added to the fetch timer and
    the time added to the iteration timer make up the whole time elapsed:
    the iteration timer covers what the fetch timer does not. *)
Theorem fetch_and_iter_time_partition (n : nat) w w' :
  timers_bound w ->
  main_loop impl n w = (Normal tt, w') ->
  (tr_total (timer_at (fetch_timer (self w')) w')
   - tr_total (timer_at (fetch_timer (self w)) w))
  + (tr_total (timer_at (iter_timer (self w')) w')
     - tr_total (timer_at (iter_timer (self w)) w))
  = clock w' - clock w.
Proof.
  intros Hb H.
  apply main_loop_from_timers in H as (_ & -> & _ & _ & _ & Hacc & _); auto.
Qed.

(** When no call takes negative time, the time added to the learn timer
    over [n] completed iterations is at most the time added to the
    iteration timer: the learn block is nested in the iteration block. *)
Theorem learn_time_within_iter_time (n : nat) w w' :
  timers_bound w ->
  Forall (fun d => 0 <= d) (elapse w) ->
  main_loop impl n w = (Normal tt, w') ->
  0 <= tr_total (timer_at (learn_timer (self w')) w')
       - tr_total (timer_at (learn_timer (self w)) w)
    <= tr_total (timer_at (iter_timer (self w')) w')
       - tr_total (timer_at (iter_timer (self w)) w).
Proof.
  intros Hb Hpos H.
  apply main_loop_from_timers in H as (_ & -> & _ & _ & _ & _ & Hn); auto.
  apply Hn, Hpos.
Qed.

(** A newly constructed learner has its timers bound, and initialization
    keeps them so. *)
Lemma constructed_timers_bound (sampler_host : string)
    (sampler_port ps_publish_port batch_size max_prefetch_batch_queue : Z)
    (model0 : Model) (elapse0 : list Z) (feed0 : list Batch) :
  let w0 := LearnerCore_init (ModuleDict:=ModuleDict) (Payload:=Payload)
              sampler_host sampler_port ps_publish_port batch_size
              max_prefetch_batch_queue model0 elapse0 feed0 in
  timers_bound w0 /\ timers_bound (_initialize impl w0).2.
Proof.
  intros w0.
  assert (timers_bound w0) as H0.
  { unfold timers_bound. simpl. repeat split; auto; lia. }
  split; [exact H0|].
  destruct (_initialize_timers impl w0) as (Ht & Hf & Hl & Hi & Hq).
  unfold timers_bound in *. rewrite Ht, Hf, Hl, Hi, Hq. exact H0.
Qed.

End TimerFacts.

(** ** The dictionary handed to the aggregator *)
Section TagFacts.

Local Open Scope Q_scope.
Import Stats.

Context {Batch Model ModuleDict Payload : Type}.

(** [update_tensorplex] writes the five [speed/...] tags and nothing else:
    every other tag keeps the value the caller gave it, and the keys of the
    result are the caller's keys together with those five. *)
Theorem update_tensorplex_frame (tag_value_dict : gmap string Q)
    (w : World Batch Model ModuleDict Payload) (tag : string) :
  tag <> "speed/learn_time"%string ->
  tag <> "speed/fetch_time"%string ->
  tag <> "speed/iter_time"%string ->
  tag <> "speed/compute_bound_percent"%string ->
  tag <> "speed/io_bound_percent"%string ->
  update_tensorplex tag_value_dict w !! tag = tag_value_dict !! tag
  /\ dom (update_tensorplex tag_value_dict w)
     = ({["speed/learn_time"%string; "speed/fetch_time"%string;
          "speed/iter_time"%string; "speed/compute_bound_percent"%string;
          "speed/io_bound_percent"%string]} : gset string)
       ∪ dom tag_value_dict.
Proof.
  intros H1 H2 H3 H4 H5. unfold update_tensorplex, speed_tags. cbv zeta.
  split.
  - rewrite !lookup_insert_ne by congruence. reflexivity.
  - rewrite !dom_insert_L. apply set_eq. intros x.
    rewrite !elem_of_union, !elem_of_singleton. tauto.
Qed.




End TagFacts.

(** ** The further properties on concrete inputs *)

Lemma registry_untouched_by_others_witness :
  Registry.learnerFactory "DDPGLearner"
    (Statements.exec_all MoreExamples.helper_and_ppo
       (Statements.exec MoreExamples.first_ddpg Registry.empty_module))
  = Registry.learnerFactory "DDPGLearner"
      (Statements.exec MoreExamples.first_ddpg Registry.empty_module).
Proof.
  apply (registry_untouched_by_others MoreExamples.helper_and_ppo
           (Statements.exec MoreExamples.first_ddpg Registry.empty_module)
           "DDPGLearner").
  intros s Hin Hreg.
  apply elem_of_cons in Hin as [-> | Hin]; [discriminate Hreg|].
  apply list_elem_of_singleton in Hin as ->. discriminate.
Defined.

Lemma registry_last_definition_wins_witness :
  Registry.learnerFactory "DDPGLearner"
    (Statements.exec_all
       ([MoreExamples.first_ddpg] ++ MoreExamples.second_ddpg
          :: MoreExamples.helper_and_ppo) Registry.empty_module)
  = Normal (Registry.Class "DDPGLearner" 1 [] Registry.LearnerMeta).
Proof.
  apply (registry_last_definition_wins [MoreExamples.first_ddpg]
           MoreExamples.helper_and_ppo MoreExamples.second_ddpg
           Registry.empty_module).
  - reflexivity.
  - intros s Hin Hreg.
    apply elem_of_cons in Hin as [-> | Hin]; [discriminate Hreg|].
    apply list_elem_of_singleton in Hin as ->. discriminate.
Defined.

Lemma factory_unknown_name_witness :
  Registry.learnerFactory "DDPGLearner" Registry.load_module.2
  = Raise (KeyError "DDPGLearner").
Proof.
  apply (factory_unknown_name "DDPGLearner"); discriminate.
Defined.

Lemma waiting_call_changes_nothing_witness :
  _enqueue 3%nat MoreExamples.full_queue = (Blocked, MoreExamples.full_queue)
  /\ forall w', _enqueue 3%nat MoreExamples.full_queue = (Blocked, w') ->
               w' = MoreExamples.full_queue.
Proof.
  split; [vm_compute; reflexivity|].
  apply (waiting_call_changes_nothing 3%nat MoreExamples.full_queue).
Defined.

Lemma dequeue_releases_producer_witness :
  exists oldest w1 w2,
    dequeue MoreExamples.full_queue = (Normal oldest, w1)
    /\ queue_items MoreExamples.full_queue = oldest :: queue_items w1
    /\ _enqueue 3%nat w1 = (Normal tt, w2)
    /\ queue_items w2 = queue_items w1 ++ [3%nat]
    /\ __len__ w2 = capacity MoreExamples.full_queue.
Proof.
  apply (dequeue_releases_producer 3%nat MoreExamples.full_queue).
  - vm_compute; reflexivity.
  - vm_compute; discriminate.
Defined.

Lemma enqueue_never_blocks_unbounded_witness :
  queue_items (run (Enqueue <$> [1; 2; 3]%nat) Examples.constructed_unbounded)
  = queue_items Examples.constructed_unbounded ++ [1; 2; 3]%nat
  /\ __len__ (run (Enqueue <$> [1; 2; 3]%nat) Examples.constructed_unbounded)
     = __len__ Examples.constructed_unbounded + Z.of_nat (length [1; 2; 3]%nat).
Proof.
  apply (enqueue_never_blocks_unbounded [1; 2; 3]%nat
           Examples.constructed_unbounded).
  vm_compute; discriminate.
Defined.

Lemma initialize_propagates_module_dict_error_witness :
  _initialize MoreExamples.abstract Examples.constructed
  = (Raise NotImplementedError,
     set_events (events Examples.constructed ++ [EvModuleDict])
                Examples.constructed).
Proof.
  apply (initialize_propagates_module_dict_error MoreExamples.abstract
           Examples.constructed NotImplementedError).
  reflexivity.
Defined.

Lemma initialize_attempts_start_once_witness :
  let w' := Runs.initialize_attempts (Examples.toy 0) 3 Examples.constructed in
  starts (_client (prefetch_queue w'))
  = S (starts (_client (prefetch_queue Examples.constructed)))
  /\ client_starts (events w') = S (client_starts (events Examples.constructed))
  /\ publishers w' = (publishers Examples.constructed + 3)%nat
  /\ _ps_publisher (self w')
     = Some (Publisher (publishers Examples.constructed + 2)%nat
               (_ps_port (self Examples.constructed)) ["actor"; "critic"])
  /\ _enqueue_thread (prefetch_queue w') = Some the_client.
Proof.
  apply (initialize_attempts_start_once (Examples.toy 0) 2 Examples.constructed
           ["actor"; "critic"]); reflexivity.
Defined.

Lemma main_loop_consumes_in_order_witness :
  Runs.learned (events Examples.after_two)
  = Runs.learned (events Examples.initialized)
    ++ take 2 (Runs.supply Examples.initialized)
  /\ Runs.supply Examples.after_two = drop 2 (Runs.supply Examples.initialized)
  /\ (2 <= length (Runs.supply Examples.initialized))%nat.
Proof.
  apply (main_loop_consumes_in_order (Examples.toy 0) 2 Examples.initialized
           Examples.after_two).
  vm_compute; reflexivity.
Defined.

Lemma main_loop_model_witness :
  model Examples.after_two
  = Runs.learn_all (Examples.toy 0) (take 2 (Runs.supply Examples.initialized))
      (model Examples.initialized).
Proof.
  apply (main_loop_model (Examples.toy 0) 2 Examples.initialized
           Examples.after_two).
  vm_compute; reflexivity.
Defined.



Lemma main_loop_starves_witness :
  exists w',
    main_loop (Examples.toy 0) 5 Examples.initialized = (Blocked, w')
    /\ Runs.supply w' = []
    /\ Runs.learned (events w')
       = Runs.learned (events Examples.initialized)
         ++ Runs.supply Examples.initialized
    /\ length (publish_calls (events w'))
       = (length (publish_calls (events Examples.initialized))
          + length (Runs.supply Examples.initialized))%nat.
Proof.
  apply (main_loop_starves (Examples.toy 0) 5 Examples.initialized
           (Publisher 0 7001 ["actor"; "critic"])
           (fun b m => (Normal 0%nat, b :: m))).
  - reflexivity.
  - reflexivity.
  - intros b m. eexists _, _. reflexivity.
  - intros m. eexists. reflexivity.
  - vm_compute. lia.
Defined.

Lemma publish_message_injective_witness : 3%nat = 3%nat.
Proof. apply (publish_message_injective 3 3). reflexivity. Defined.

Lemma timers_count_iterations_witness :
  tr_count (Runs.timer_at (fetch_timer (self Examples.after_two)) Examples.after_two)
  = (tr_count (Runs.timer_at (fetch_timer (self Examples.initialized))
                 Examples.initialized) + 2)%nat
  /\ tr_count (Runs.timer_at (learn_timer (self Examples.after_two))
                 Examples.after_two)
     = (tr_count (Runs.timer_at (learn_timer (self Examples.initialized))
                    Examples.initialized) + 2)%nat
  /\ tr_count (Runs.timer_at (iter_timer (self Examples.after_two))
                 Examples.after_two)
     = (tr_count (Runs.timer_at (iter_timer (self Examples.initialized))
                    Examples.initialized) + 2)%nat.
Proof.
  apply (timers_count_iterations (Examples.toy 0) 2 Examples.initialized
           Examples.after_two).
  - unfold Runs.timers_bound. vm_compute. repeat split; try discriminate; lia.
  - vm_compute; reflexivity.
Defined.

Lemma fetch_and_iter_time_partition_witness :
  (tr_total (Runs.timer_at (fetch_timer (self Examples.after_two)) Examples.after_two)
   - tr_total (Runs.timer_at (fetch_timer (self Examples.initialized))
                 Examples.initialized))
  + (tr_total (Runs.timer_at (iter_timer (self Examples.after_two))
                 Examples.after_two)
     - tr_total (Runs.timer_at (iter_timer (self Examples.initialized))
                   Examples.initialized))
  = clock Examples.after_two - clock Examples.initialized.
Proof.
  apply (fetch_and_iter_time_partition (Examples.toy 0) 2 Examples.initialized
           Examples.after_two).
  - unfold Runs.timers_bound. vm_compute. repeat split; try discriminate; lia.
  - vm_compute; reflexivity.
Defined.

Lemma learn_time_within_iter_time_witness :
  0 <= tr_total (Runs.timer_at (learn_timer (self Examples.after_two))
                   Examples.after_two)
       - tr_total (Runs.timer_at (learn_timer (self Examples.initialized))
                     Examples.initialized)
    <= tr_total (Runs.timer_at (iter_timer (self Examples.after_two))
                   Examples.after_two)
       - tr_total (Runs.timer_at (iter_timer (self Examples.initialized))
                     Examples.initialized).
Proof.
  apply (learn_time_within_iter_time (Examples.toy 0) 2 Examples.initialized
           Examples.after_two).
  - unfold Runs.timers_bound. vm_compute. repeat split; try discriminate; lia.
  - repeat constructor; discriminate.
  - vm_compute; reflexivity.
Defined.

Lemma update_tensorplex_frame_witness :
  update_tensorplex MoreExamples.caller_tags Examples.after_two !! "loss"%string
  = MoreExamples.caller_tags !! "loss"%string.
Proof.
  apply (update_tensorplex_frame MoreExamples.caller_tags Examples.after_two
           "loss"); discriminate.
Defined.

